(** * go-commons-libs: the RabbitMQ connection manager and the Azure blob
      storage adapter

    A shallow embedding of [pkg/adapter/rabbitmq/rabbitmq.go] and
    [pkg/adapter/azure/blobstorage/blobstorage.go].

    Conventions of the embedding.
    - A Go [int] is a [Z]; the platform is taken to be 64-bit
      ([strconv.IntSize = 64]).
    - A Go [error] value is its message; the nil error is [None].
    - A nilable pointer ([*amqp.Connection], [*amqp.Channel]) is an [option].
    - The process environment is a finite map from names to values;
      [os.Getenv] yields the empty string for a name that is not bound.
    - [os.Exit], [log.Fatalf] and a run-time panic end the process: a call
      that can reach one of them returns an [outcome].
    - [log.Println] only writes to the standard logger and is left out.
    - Everything the program obtains from outside (the broker behind
      [amqp.Dial], the blob service behind [azblob.Client], the local file
      system) is an explicit argument. *)

From stdpp Require Import gmap strings list.
From Stdlib Require Import ZArith Ascii String Lia.

Local Open Scope string_scope.
Local Open Scope Z_scope.

(** ** Go run-time notions *)

Module Go.

Definition error := string.

(** How a call ends: it returns to its caller, or the process is ended by
    [os.Exit] (also through [log.Fatalf], which exits with status 1), or by
    a panic that nothing recovers. *)
Inductive outcome (A : Type) : Type :=
| Returned (a : A)
| Exited (status : Z)
| Panicked (msg : string).
Arguments Returned {A} a.
Arguments Exited {A} status.
Arguments Panicked {A} msg.

Definition ends_process {A : Type} (o : outcome A) : bool :=
  match o with
  | Returned _ => false
  | Exited _ | Panicked _ => true
  end.

(** [os.Getenv] *)
Definition Getenv (env : gmap string string) (key : string) : string :=
  default "" (env !! key).

(** The result of a library constructor that returns a pointer and an
    [error].  With a nil error the client libraries return a non-nil
    handle; with a non-nil error the handle is whatever the library hands
    back, nil or not. *)
Inductive lib_result (H : Type) : Type :=
| Opened (h : H)
| Failed (h : option H) (e : error).
Arguments Opened {H} h.
Arguments Failed {H} h e.

Definition error_of {H : Type} (r : lib_result H) : option error :=
  match r with
  | Opened _ => None
  | Failed _ e => Some e
  end.

(** The memory that the run time can hand out.  [maxAlloc] is the largest
    allocation the platform admits; [exhausted n] tells whether an
    allocation of [n] bytes within that bound finds no memory. *)
Record Memory : Type := {
  maxAlloc : Z;
  exhausted : Z -> bool
}.

Definition makeslice_len_out_of_range : string :=
  "runtime error: makeslice: len out of range".


(** [make([]byte, n)]: a length that is negative or above [maxAlloc]
    panics; an allocation that finds no memory is a fatal error of the run
    time, which exits with status 2; otherwise the slice holds [n] zero
    bytes. *)
Definition make_bytes (mem : Memory) (n : Z) : outcome (list Byte.byte) :=
  if (n <? 0) || (maxAlloc mem <? n) then Panicked makeslice_len_out_of_range
  else if exhausted mem n then Exited 2
  else Returned (repeat Byte.x00 (Z.to_nat n)).

End Go.

(** ** strconv.Atoi

    [strconv] belongs to the Go standard library.  [New] calls
    [strconv.Atoi] and keeps only the integer it returns, so the value
    returned next to an error matters.  The definitions follow the
    library's [atoi.go], specialised to base 10 and to a 64-bit [int]. *)

Module strconv.

Inductive NumError : Type := ErrSyntax | ErrRange.

Definition intSize : Z := 64.
Definition maxUint64 : Z := 2 ^ 64 - 1.

Definition byte_of (c : ascii) : Z := Z.of_N (N_of_ascii c).

(** [lower(c) = c | ('x' - 'X')] *)
Definition lower (c : Z) : Z := Z.lor c 32.

(** The loop of [ParseUint(s, 10, 64)]; [n] is the [uint64] accumulator. *)
Fixpoint ParseUint_digits (s : string) (n : Z) : Z * option NumError :=
  match s with
  | EmptyString => (n, None)
  | String ch rest =>
      let c := byte_of ch in
      let digit :=
        if (48 <=? c) && (c <=? 57) then Some (c - 48)
        else if (97 <=? lower c) && (lower c <=? 122)
             then Some (lower c - 97 + 10)
             else None in
      match digit with
      | None => (0, Some ErrSyntax)
      | Some d =>
          if 10 <=? d then (0, Some ErrSyntax)
          else if maxUint64 / 10 + 1 <=? n then (maxUint64, Some ErrRange)
          else
            let n10 := (n * 10) mod 2 ^ 64 in
            let n1 := (n10 + d) mod 2 ^ 64 in
            if (n1 <? n10) || (maxUint64 <? n1)
            then (maxUint64, Some ErrRange)
            else ParseUint_digits rest n1
      end
  end.

Definition ParseUint (s : string) : Z * option NumError :=
  if decide (s = "") then (0, Some ErrSyntax) else ParseUint_digits s 0.

(** [ParseInt(s, 10, 0)] *)
Definition ParseInt (s : string) : Z * option NumError :=
  match s with
  | EmptyString => (0, Some ErrSyntax)
  | String c0 rest =>
      let neg := bool_decide (c0 = "-"%char) in
      let s1 := if bool_decide (c0 = "+"%char) || neg then rest else s in
      let '(un, err) := ParseUint s1 in
      match err with
      | Some ErrSyntax => (0, Some ErrSyntax)
      | _ =>
          let cutoff := 2 ^ (intSize - 1) in
          if negb neg && (cutoff <=? un) then (cutoff - 1, Some ErrRange)
          else if neg && (cutoff <? un) then (- cutoff, Some ErrRange)
          else (if neg then - un else un, None)
      end
  end.

(** The loop of the fast path of [Atoi]: [ch -= '0'] on a byte, then
    [ch > 9]. *)
Fixpoint Atoi_fast_digits (s : string) (n : Z) : option Z :=
  match s with
  | EmptyString => Some n
  | String ch rest =>
      let d := (byte_of ch - 48) mod 256 in
      if 9 <? d then None else Atoi_fast_digits rest (n * 10 + d)
  end.

Definition Atoi (s : string) : Z * option NumError :=
  let sLen := Z.of_nat (String.length s) in
  if (0 <? sLen) && (sLen <? 19) then
    match s with
    | EmptyString => (0, Some ErrSyntax)
    | String c0 rest =>
        let signed := bool_decide (c0 = "-"%char) || bool_decide (c0 = "+"%char) in
        let s1 := if signed then rest else s in
        if signed && (Z.of_nat (String.length s1) <? 1)
        then (0, Some ErrSyntax)
        else
          match Atoi_fast_digits s1 0 with
          | None => (0, Some ErrSyntax)
          | Some n => (if bool_decide (c0 = "-"%char) then - n else n, None)
          end
    end
  else ParseInt s.

(** Whether [s] begins with a minus sign. *)
Definition negative (s : string) : bool :=
  match s with
  | EmptyString => false
  | String c0 _ => bool_decide (c0 = "-"%char)
  end.

End strconv.

(** ** package rabbitmq *)

Module rabbitmq.
Import Go.

Definition DEFAULT_MAX_RECONNECT_TIMES : Z := 3.

(** The two fields of [config.Config] that this package reads and writes. *)
Record Config : Type := {
  RMQ_URI : string;
  RMQ_MAXX_RECONNECT_TIMES : Z
}.

Inductive Connection : Type := ConnectionId (id : nat).
Inductive Channel : Type := ChannelId (id : nat).

(** [err] is an unbuffered channel: what it holds are the notifications
    whose senders are still blocked on it. *)
Record rbm_pool : Type := {
  conn : option Connection;
  channel : option Channel;
  conf : Config;
  err : list error;
  MAXX_RECONNECT_TIMES : Z
}.

Definition set_conn (c : option Connection) (rbm : rbm_pool) : rbm_pool :=
  {| conn := c; channel := channel rbm; conf := conf rbm; err := err rbm;
     MAXX_RECONNECT_TIMES := MAXX_RECONNECT_TIMES rbm |}.

Definition set_channel (ch : option Channel) (rbm : rbm_pool) : rbm_pool :=
  {| conn := conn rbm; channel := ch; conf := conf rbm; err := err rbm;
     MAXX_RECONNECT_TIMES := MAXX_RECONNECT_TIMES rbm |}.

(** [New]: the package variable [rbmpool] is replaced by the pool that is
    returned. *)
Definition New (env : gmap string string) (conf0 : Config) : outcome rbm_pool :=
  let SRV_RMQ_URI := Getenv env "SRV_RMQ_URI" in
  if bool_decide (SRV_RMQ_URI <> "") then
    let conf1 := {| RMQ_URI := SRV_RMQ_URI;
                    RMQ_MAXX_RECONNECT_TIMES := RMQ_MAXX_RECONNECT_TIMES conf0 |} in
    let SRV_RMQ_MAXX_RECONNECT_TIMES := Getenv env "SRV_RMQ_MAXX_RECONNECT_TIMES" in
    let conf2 :=
      if bool_decide (SRV_RMQ_MAXX_RECONNECT_TIMES <> "") then
        {| RMQ_URI := RMQ_URI conf1;
           RMQ_MAXX_RECONNECT_TIMES := fst (strconv.Atoi SRV_RMQ_MAXX_RECONNECT_TIMES) |}
      else
        {| RMQ_URI := RMQ_URI conf1;
           RMQ_MAXX_RECONNECT_TIMES := DEFAULT_MAX_RECONNECT_TIMES |} in
    Returned {| conn := None; channel := None; conf := conf2; err := [];
                MAXX_RECONNECT_TIMES := 0 |}
  else Exited 1.

(** The broker as [Connect] meets it: what [amqp.Dial] answers for a URI
    and what the [Channel] method of [amqp.Connection] answers on a connection. *)
Record Broker : Type := {
  Dial : string -> lib_result Connection;
  OpenChannel : Connection -> lib_result Channel
}.

(** The goroutines that [Connect] starts; each waits on [NotifyClose] of
    its resource and then sends on [rbm.err]. *)
Inductive watcher : Type :=
| WatchConnection (c : Connection)
| WatchChannel (ch : Channel).

Record connect_result : Type := {
  pool : rbm_pool;
  connect_err : option error;
  spawned : list watcher
}.

Definition Connect (b : Broker) (rbm : rbm_pool) : connect_result :=
  match Dial b (RMQ_URI (conf rbm)) with
  | Failed h e =>
      {| pool := set_conn h rbm; connect_err := Some e; spawned := [] |}
  | Opened c =>
      let rbm1 := set_conn (Some c) rbm in
      match OpenChannel b c with
      | Failed h e =>
          {| pool := set_channel h rbm1; connect_err := Some e;
             spawned := [WatchConnection c] |}
      | Opened ch =>
          {| pool := set_channel (Some ch) rbm1; connect_err := None;
             spawned := [WatchConnection c; WatchChannel ch] |}
      end
  end.

Definition GetConnect (rbm : rbm_pool) : rbm_pool := rbm.


End rabbitmq.

(** ** The connection life cycle of the specification

    [rbm_pool] has no state field.  The specification's state machine is run
    next to the code: a finished [Connect] call moves it to [Connected] when
    the call returned a nil error and to [Disconnected] otherwise. *)

Module lifecycle.
Import Go rabbitmq.

Inductive State : Type := Disconnected | Connecting | Connected | Closing.

Definition after_Connect (r : connect_result) : State :=
  match connect_err r with
  | None => Connected
  | Some _ => Disconnected
  end.

(** A manager fresh from [New] on which [Connect] is called once per
    element of [bs], each call meeting the broker as it is at that time. *)
Fixpoint run (bs : list Broker) (rbm : rbm_pool) (st : State) : rbm_pool * State :=
  match bs with
  | [] => (rbm, st)
  | b :: bs' => let r := Connect b rbm in run bs' (pool r) (after_Connect r)
  end.

Definition both_null (rbm : rbm_pool) : Prop :=
  conn rbm = None /\ channel rbm = None.

Definition both_live (rbm : rbm_pool) : Prop :=
  is_Some (conn rbm) /\ is_Some (channel rbm).

Definition state_invariant (st : State) (rbm : rbm_pool) : Prop :=
  (st = Connected -> both_live rbm) /\ (st = Disconnected -> both_null rbm).

(** The channel handle a caller can reach through the accessor. *)
Definition exposed_channel (rbm : rbm_pool) : option Channel :=
  channel (GetConnect rbm).

End lifecycle.

(** ** The reconnect policy *)

Module reconnect.
Import Go rabbitmq.

Definition ConnectionError : error := "reconnect attempts exhausted".

Record cycle : Type := {
  final : rbm_pool;
  attempts : nat;
  reconnected : bool;
  observed : list error
}.

(** Modelled from the spec: the supervisor that reacts to a closure (the
    body of [StartConsumer]) is not among the sources.  Up to [fuel] further
    attempts, each one the full [Connect] sequence, the [k]-th meeting the
    broker [net k]; the first success ends the cycle. *)
Fixpoint attempt (fuel k : nat) (net : nat -> Broker) (rbm : rbm_pool)
  : rbm_pool * nat * bool :=
  match fuel with
  | O => (rbm, O, false)
  | S fuel' =>
      let r := Connect (net k) rbm in
      match connect_err r with
      | None => (pool r, 1%nat, true)
      | Some _ =>
          let '(rbm', n, ok) := attempt fuel' (S k) net (pool r) in
          (rbm', S n, ok)
      end
  end.

(** Modelled from the spec: one reconnect cycle for one closure event.  The
    bound is the configured maximum; exhausting it leaves the manager
    without handles and hands one terminal [ConnectionError] to the failure
    observer. *)
Definition reconnect_cycle (net : nat -> Broker) (rbm : rbm_pool) : cycle :=
  let '(rbm', n, ok) :=
    attempt (Z.to_nat (RMQ_MAXX_RECONNECT_TIMES (conf rbm))) O net rbm in
  if ok then
    {| final := rbm'; attempts := n; reconnected := true; observed := [] |}
  else
    {| final := set_channel None (set_conn None rbm'); attempts := n;
       reconnected := false; observed := [ConnectionError] |}.

End reconnect.

(** ** Topology declaration *)

Module topology.
Import Go.

(** Modelled from the spec: the declarations of [Queue], [Exchange] and of
    the bind are not among the sources; the fields are those of the data
    model. *)
Record Bind : Type := {
  bind_exchange : string;
  routing_key : string;
  bind_args : gmap string string
}.

Record Queue : Type := {
  queue_name : string;
  queue_durable : bool;
  queue_auto_delete : bool;
  queue_exclusive : bool;
  queue_no_wait : bool;
  queue_args : gmap string string;
  queue_binds : list Bind
}.

Inductive ExchangeKind : Type := direct | fanout | topic | headers.

Record Exchange : Type := {
  exchange_name : string;
  exchange_kind : ExchangeKind;
  exchange_durable : bool;
  exchange_auto_delete : bool;
  exchange_args : gmap string string
}.

(** One declaration as the broker receives it. *)
Inductive item : Type :=
| ExchangeItem (e : Exchange)
| QueueItem (q : Queue).

Section Declarator.
(** [W] is the broker as reached through the live channel.  The two
    single-item operations are those of the interface; what they do on
    the broker is left open. *)
Context {W : Type}.
Variable SimpleQueueDeclare : Queue -> W -> W * option error.
Variable SimpleExchangeDeclare : Exchange -> W -> W * option error.

(** Modelled from the spec: the batch operations are declared in
    [RabbitInterface] and implemented outside the sources.  Each spec is
    declared in turn, a failure is recorded and the loop goes on. *)
Fixpoint declare_each {A : Type} (declare : A -> W -> W * option error)
    (specs : list A) (w : W) : W * list error :=
  match specs with
  | [] => (w, [])
  | x :: rest =>
      let '(w1, e) := declare x w in
      let '(w2, errs) := declare_each declare rest w1 in
      (w2, match e with Some e' => e' :: errs | None => errs end)
  end.

(** What each spec met, in input order. *)
Fixpoint outcomes {A : Type} (declare : A -> W -> W * option error)
    (specs : list A) (w : W) : list (A * option error) :=
  match specs with
  | [] => []
  | x :: rest =>
      let '(w1, e) := declare x w in (x, e) :: outcomes declare rest w1
  end.

Definition CompleteQueueDeclare (sq : list Queue) (w : W) : W * list error :=
  declare_each SimpleQueueDeclare sq w.

Definition CompleteExchangeDeclare (ce : list Exchange) (w : W) : W * list error :=
  declare_each SimpleExchangeDeclare ce w.

(** Modelled from the spec: exchanges first, then queues; one list of
    errors. *)
Definition CompleteDeclare (cq : list Queue) (ce : list Exchange) (w : W)
  : W * list error :=
  let '(w1, errs_e) := CompleteExchangeDeclare ce w in
  let '(w2, errs_q) := CompleteQueueDeclare cq w1 in
  (w2, (errs_e ++ errs_q)%list).

End Declarator.

(** A single-item operation that also writes down, on the broker's side,
    that it was called. *)
Definition logged {W A : Type} (tag : A -> item)
    (declare : A -> W -> W * option error)
    (x : A) (wl : W * list item) : (W * list item) * option error :=
  let '(w1, e) := declare x (fst wl) in ((w1, (snd wl ++ [tag x])%list), e).

(** A small broker for examples: it knows the exchanges declared so far; an
    exchange declaration succeeds, a queue declaration fails when one of
    its binds names an exchange that is not there. *)
Definition toy_exchange_declare (e : Exchange) (known : gset string)
  : gset string * option error :=
  ({[ exchange_name e ]} ∪ known, None).

Definition toy_queue_declare (q : Queue) (known : gset string)
  : gset string * option error :=
  if forallb (fun b => bool_decide (bind_exchange b ∈ known)) (queue_binds q)
  then (known, None)
  else (known, Some ("no exchange for a bind of " +:+ queue_name q)).

End topology.

(** ** The blob service behind [azblob.Client]

    The Azure SDK and the service are outside the repository.  The client
    is an interface value; [service] is the part of the service's contract
    that the uploads rely on: a write that carries [If-None-Match: *] is
    refused when a blob of that name exists, any other write replaces the
    blob, and a request can fail for reasons of its own ([fault]). *)

Module azblob.
Import Go.

Definition ETag := string.
Definition ETagAny : ETag := "*".

Record blob_ModifiedAccessConditions : Type := {
  IfNoneMatch : option ETag
}.

Record blob_AccessConditions : Type := {
  ModifiedAccessConditions : option blob_ModifiedAccessConditions
}.

(** The fields of [UploadBufferOptions], [UploadStreamOptions] and
    [UploadFileOptions] that the adapter sets. *)
Record UploadOptions : Type := {
  AccessConditions : option blob_AccessConditions;
  BlockSize : Z;
  Concurrency : Z
}.

Definition if_none_match (o : UploadOptions) : option ETag :=
  match AccessConditions o with
  | Some ac =>
      match ModifiedAccessConditions ac with
      | Some mac => IfNoneMatch mac
      | None => None
      end
  | None => None
  end.

(** The blobs of an account, by container name and blob name. *)
Definition blob_name : Type := string * string.

Record Client : Type := {
  UploadBuffer : string -> string -> list Byte.byte -> UploadOptions ->
                 gmap blob_name (list Byte.byte) ->
                 gmap blob_name (list Byte.byte) * option error;
  UploadStream : string -> string -> list Byte.byte -> UploadOptions ->
                 gmap blob_name (list Byte.byte) ->
                 gmap blob_name (list Byte.byte) * option error;
  UploadFile : string -> string -> list Byte.byte -> UploadOptions ->
               gmap blob_name (list Byte.byte) ->
               gmap blob_name (list Byte.byte) * option error
}.

Definition BlobAlreadyExists : error := "BlobAlreadyExists".

Definition put (fault : option error) (containerName blobName : string)
    (data : list Byte.byte) (o : UploadOptions)
    (blobs : gmap blob_name (list Byte.byte))
  : gmap blob_name (list Byte.byte) * option error :=
  match fault with
  | Some e => (blobs, Some e)
  | None =>
      if bool_decide (if_none_match o = Some ETagAny)
         && bool_decide (is_Some (blobs !! (containerName, blobName)))
      then (blobs, Some BlobAlreadyExists)
      else (<[(containerName, blobName) := data]> blobs, None)
  end.

Definition service (fault : option error) : Client :=
  {| UploadBuffer := put fault; UploadStream := put fault; UploadFile := put fault |}.

End azblob.

(** ** The local files that [UploadFile] goes through *)

Module os.
Import Go.

(** What each call on the local file system answers. *)
Record Files : Type := {
  WriteFile : option error;
  Open : option error;
  Close : option error;
  Remove : option error
}.

End os.

(** ** package blobstorage *)

Module blobstorage.
Import Go azblob.

Definition UploadBlobBuffer (bs : Client) (blobName containerName : string)
    (data : list Byte.byte) (blobs : gmap blob_name (list Byte.byte))
  : gmap blob_name (list Byte.byte) * option error :=
  let '(blobs', r) :=
    UploadBuffer bs containerName blobName data
      {| AccessConditions :=
           Some {| ModifiedAccessConditions := Some {| IfNoneMatch := Some ETagAny |} |};
         BlockSize := 0; Concurrency := 0 |} blobs in
  match r with
  | Some e => (blobs', Some ("error uploading a buffer blob: " +:+ e))
  | None => (blobs', None)
  end.

(** [data] is what the [io.Reader] yields. *)
Definition UploadBlobStream (bs : Client) (blobName containerName : string)
    (data : list Byte.byte) (blobs : gmap blob_name (list Byte.byte))
  : gmap blob_name (list Byte.byte) * option error :=
  let '(blobs', r) :=
    UploadStream bs containerName blobName data
      {| AccessConditions :=
           Some {| ModifiedAccessConditions := Some {| IfNoneMatch := Some ETagAny |} |};
         BlockSize := 0; Concurrency := 0 |} blobs in
  match r with
  | Some e => (blobs', Some ("error uploading a stream blob: " +:+ e))
  | None => (blobs', None)
  end.

(** [UploadFile]: the slice comes from [make]; the two deferred functions
    run after the result is fixed, last registered first, and each ends the
    process through [log.Fatalf] when its call fails. *)
Definition UploadFile (bs : Client) (mem : Memory) (fs : os.Files)
    (blobName containerName : string)
    (blobSize : Z) (blobs : gmap blob_name (list Byte.byte))
  : gmap blob_name (list Byte.byte) * outcome (option error) :=
  match make_bytes mem blobSize with
  | Panicked msg => (blobs, Panicked msg)
  | Exited status => (blobs, Exited status)
  | Returned fileData =>
      match os.WriteFile fs with
      | Some e => (blobs, Returned (Some ("error writing file: " +:+ e)))
      | None =>
          match os.Open fs with
          | Some e => (blobs, Returned (Some ("error opening the blob file: " +:+ e)))
          | None =>
              let '(blobs', r) :=
                azblob.UploadFile bs containerName blobName fileData
                  {| AccessConditions := None; BlockSize := 1024; Concurrency := 3 |}
                  blobs in
              let result :=
                match r with
                | Some e => Some ("error uploading the file to blob storage: " +:+ e)
                | None => None
                end in
              match os.Remove fs with
              | Some _ => (blobs', Exited 1)
              | None =>
                  match os.Close fs with
                  | Some _ => (blobs', Exited 1)
                  | None => (blobs', Returned result)
                  end
              end
          end
      end
  end.

End blobstorage.

(** ** Brokers and a manager for the examples *)

Module scenarios.
Import Go rabbitmq.

Definition env_default : gmap string string :=
  {[ "SRV_RMQ_URI" := "amqp://guest@localhost:5672/" ]}.

(** The manager that [New] returns under [env_default]. *)
Definition fresh : rbm_pool :=
  {| conn := None; channel := None;
     conf := {| RMQ_URI := "amqp://guest@localhost:5672/";
                RMQ_MAXX_RECONNECT_TIMES := 3 |};
     err := []; MAXX_RECONNECT_TIMES := 0 |}.

(** A broker that accepts the connection and the channel. *)
Definition broker_up (n : nat) : Broker :=
  {| Dial := fun _ => Opened (ConnectionId n);
     OpenChannel := fun _ => Opened (ChannelId n) |}.

(** A broker that cannot be reached. *)
Definition broker_down : Broker :=
  {| Dial := fun _ => Failed None "dial tcp: connection refused";
     OpenChannel := fun _ => Failed None "channel/connection is not open" |}.

(** A broker that accepts the connection and refuses the channel. *)
Definition broker_no_channel (n : nat) : Broker :=
  {| Dial := fun _ => Opened (ConnectionId n);
     OpenChannel := fun _ => Failed None "channel id space exhausted" |}.

(** A 64-bit Linux machine with memory to spare. *)
Definition plenty : Memory :=
  {| maxAlloc := 2 ^ 48; exhausted := fun _ => false |}.

End scenarios.

(** ** A topology for the examples *)

Module orders.
Import topology.

Definition orders_exchange : Exchange :=
  {| exchange_name := "orders"; exchange_kind := topic;
     exchange_durable := true; exchange_auto_delete := false;
     exchange_args := ∅ |}.

Definition created_queue : Queue :=
  {| queue_name := "orders.created"; queue_durable := true;
     queue_auto_delete := false; queue_exclusive := false;
     queue_no_wait := false; queue_args := ∅;
     queue_binds := [ {| bind_exchange := "orders"; routing_key := "created";
                         bind_args := ∅ |} ] |}.

(** Bound to an exchange that nothing declares. *)
Definition orphan_queue : Queue :=
  {| queue_name := "audit"; queue_durable := false;
     queue_auto_delete := false; queue_exclusive := false;
     queue_no_wait := false; queue_args := ∅;
     queue_binds := [ {| bind_exchange := "audit-log"; routing_key := "#";
                         bind_args := ∅ |} ] |}.

End orders.

(** ** Decimal numerals *)

Module decimal.

(** The byte of the digit [d]. *)
Definition digit_char (d : Z) : ascii := ascii_of_N (Z.to_N (48 + d)).

Definition numeral (ds : list Z) : string :=
  fold_right (fun d s => String (digit_char d) s) EmptyString ds.

Definition value_from (ds : list Z) (n : Z) : Z :=
  fold_left (fun acc d => acc * 10 + d) ds n.

Definition value (ds : list Z) : Z := value_from ds 0.

Definition is_digit (d : Z) : Prop := 0 <= d <= 9.

End decimal.

(** ** The goroutines of a sequence of [Connect] calls *)

Module sessions.
Import Go rabbitmq.

(** Every watcher started while [Connect] is called once per element of
    [bs]; a watcher ends only when its resource closes, and [Connect] closes
    nothing. *)
Fixpoint run_spawned (bs : list Broker) (rbm : rbm_pool) : list watcher :=
  match bs with
  | [] => []
  | b :: bs' =>
      (spawned (Connect b rbm) ++ run_spawned bs' (pool (Connect b rbm)))%list
  end.

Fixpoint run_pool (bs : list Broker) (rbm : rbm_pool) : rbm_pool :=
  match bs with
  | [] => rbm
  | b :: bs' => run_pool bs' (pool (Connect b rbm))
  end.

Definition watches_connection (w : watcher) : bool :=
  match w with
  | WatchConnection _ => true
  | WatchChannel _ => false
  end.

Definition dial_ok (uri : string) (b : Broker) : bool :=
  match Dial b uri with
  | Opened _ => true
  | Failed _ _ => false
  end.

End sessions.

(** ** The rest of the blob client

    Listing, download, container creation and URL signing, as the adapter
    calls them.  [ReadClient] is the interface; [read_service] answers
    downloads from the blobs of the account. *)

Module azblob_read.
Import Go.

(** [container.BlobProperties] and [container.BlobItem]: the pointers that
    the adapter follows. *)
Record BlobProperties : Type := {
  LastModified : option Z
}.

Record BlobItem : Type := {
  Name : option string;
  Properties : option BlobProperties
}.

(** The fields of [ListBlobsInclude] that the adapter sets. *)
Record ListBlobsInclude : Type := {
  Snapshots : bool;
  Versions : bool
}.

(** What [NextPage] answers: an error, or a response whose [Segment] may be
    nil and whose [BlobItems] are pointers. *)
Inductive page : Type :=
| PageError (e : error)
| Page (Segment : option (list (option BlobItem))).

Record DownloadStreamResponse : Type := {
  Body : list Byte.byte
}.

Record sas_BlobPermissions : Type := {
  Read : bool; Add : bool; Create : bool; Write : bool; Delete : bool;
  DeletePreviousVersion : bool; PermanentDelete : bool; List : bool;
  Tag : bool; Move : bool; Execute : bool; Ownership : bool;
  Permissions : bool; SetImmutabilityPolicy : bool
}.

(** [DownloadFile] answers with the bytes it wrote to the file and its
    error; [GetSASURL] is asked through the blob client of [containerName]
    and [blobName]; times are nanoseconds. *)
Record ReadClient : Type := {
  NewListBlobsFlatPager : string -> ListBlobsInclude -> list page;
  DownloadStream : string -> string -> gmap azblob.blob_name (list Byte.byte) ->
                   DownloadStreamResponse + error;
  DownloadFile : string -> string -> gmap azblob.blob_name (list Byte.byte) ->
                 list Byte.byte * option error;
  CreateContainer : string -> option error;
  GetSASURL : string -> string -> sas_BlobPermissions -> Z -> string + error
}.

Definition BlobNotFound : error := "BlobNotFound".

Definition get (fault : option error) (containerName blobName : string)
    (blobs : gmap azblob.blob_name (list Byte.byte))
  : DownloadStreamResponse + error :=
  match fault with
  | Some e => inr e
  | None =>
      match blobs !! (containerName, blobName) with
      | Some data => inl {| Body := data |}
      | None => inr BlobNotFound
      end
  end.

Definition fetch (fault : option error) (containerName blobName : string)
    (blobs : gmap azblob.blob_name (list Byte.byte))
  : list Byte.byte * option error :=
  match get fault containerName blobName blobs with
  | inl r => (Body r, None)
  | inr e => ([], Some e)
  end.

(** A service whose listing answers with [pages]. *)
Definition paged_service (pages : list page) (fault : option error) : ReadClient :=
  {| NewListBlobsFlatPager := fun _ _ => pages;
     DownloadStream := get fault;
     DownloadFile := fetch fault;
     CreateContainer := fun _ => fault;
     GetSASURL := fun _ _ _ _ => inr "no credential" |}.

Definition read_service (fault : option error) : ReadClient :=
  paged_service [] fault.

End azblob_read.

(** ** The local files of the download functions *)

Module osfile.
Import Go.

(** What the calls on the local file and on the response stream answer.
    [Copy] is [io.Copy]: it ends well, or fails after some bytes. *)
Record Faults : Type := {
  Create : option error;
  CloseFile : option error;
  CloseStream : option error;
  Copy : option (nat * error)
}.

Definition no_faults : Faults :=
  {| Create := None; CloseFile := None; CloseStream := None; Copy := None |}.

End osfile.

(** ** package blobstorage, continued *)

Module blobstorage_read.
Import Go azblob_read.

Record blobStorage : Type := {
  Client : ReadClient;
  BlobURLExpiryTime : Z
}.

(** The fields of [BlobInfo] that the package fills. *)
Record BlobInfo : Type := {
  info_Name : string;
  FileURL : string;
  info_LastModified : Z
}.

Definition GetBlobClient (bs : blobStorage) : ReadClient := Client bs.

Definition nil_dereference : string :=
  "runtime error: invalid memory address or nil pointer dereference".

(** One element of [BlobItems] turned into a [BlobInfo]; [None] when one of
    the pointers followed is nil. *)
Definition blob_info (containerName : string) (blobFile : option BlobItem)
  : option BlobInfo :=
  match blobFile with
  | None => None
  | Some item =>
      match Name item, Properties item with
      | Some name, Some props =>
          match LastModified props with
          | Some t =>
              Some {| info_Name := name;
                      FileURL := containerName +:+ "/" +:+ name;
                      info_LastModified := t |}
          | None => None
          end
      | _, _ => None
      end
  end.

(** The inner loop: [blobs] is the slice so far. *)
Fixpoint append_items (containerName : string) (items : list (option BlobItem))
    (blobs : list BlobInfo) : option (list BlobInfo) :=
  match items with
  | [] => Some blobs
  | blobFile :: rest =>
      match blob_info containerName blobFile with
      | None => None
      | Some info => append_items containerName rest (blobs ++ [info])%list
      end
  end.

(** The outer loop, one step per page that the pager still has. *)
Fixpoint ListBlobs_pages (containerName : string) (pages : list page)
    (blobs : list BlobInfo) : outcome (list BlobInfo * option error) :=
  match pages with
  | [] => Returned (blobs, None)
  | PageError e :: _ => Returned ([], Some ("error listing blobs: " +:+ e))
  | Page None :: rest => ListBlobs_pages containerName rest blobs
  | Page (Some items) :: rest =>
      match append_items containerName items blobs with
      | None => Panicked nil_dereference
      | Some blobs' => ListBlobs_pages containerName rest blobs'
      end
  end.

Definition ListBlobs (bs : blobStorage) (containerName : string)
  : outcome (list BlobInfo * option error) :=
  ListBlobs_pages containerName
    (NewListBlobsFlatPager (Client bs) containerName
       {| Snapshots := true; Versions := true |})
    [].

Definition DownloadBlob (bs : blobStorage) (blobInfo : BlobInfo)
    (containerName : string) (blobs : gmap azblob.blob_name (list Byte.byte))
  : option DownloadStreamResponse * option error :=
  match DownloadStream (Client bs) containerName (info_Name blobInfo) blobs with
  | inr e => (None, Some ("error downloading blob: " +:+ e))
  | inl get => (Some get, None)
  end.

(** [DownloadFile]: [files] are the local files by name; [os.Create]
    truncates. *)
Definition DownloadFile (bs : blobStorage) (fs : osfile.Faults)
    (blobInfo : BlobInfo) (containerName : string)
    (blobs : gmap azblob.blob_name (list Byte.byte))
    (files : gmap string (list Byte.byte))
  : gmap string (list Byte.byte) * outcome (option error) :=
  match osfile.Create fs with
  | Some e => (files, Returned (Some ("error creating a file: " +:+ e)))
  | None =>
      let files1 := <[info_Name blobInfo := []]> files in
      let '(written, r) :=
        azblob_read.DownloadFile (Client bs) containerName (info_Name blobInfo) blobs in
      let files2 := <[info_Name blobInfo := written]> files1 in
      let result :=
        match r with
        | Some e => Some ("error downloading blob from blob storage: " +:+ e)
        | None => None
        end in
      match osfile.CloseFile fs with
      | Some _ => (files2, Exited 1)
      | None => (files2, Returned result)
      end
  end.

(** [WriteToFile]: the stream is closed by the first deferred function,
    which runs last. *)
Definition WriteToFile (fs : osfile.Faults) (blobName : string)
    (response : DownloadStreamResponse) (files : gmap string (list Byte.byte))
  : gmap string (list Byte.byte) * outcome (option error) :=
  match osfile.Create fs with
  | Some e =>
      match osfile.CloseStream fs with
      | Some _ => (files, Exited 1)
      | None => (files, Returned (Some ("error creating a file: " +:+ e)))
      end
  | None =>
      let files1 := <[blobName := []]> files in
      let '(files2, result) :=
        match osfile.Copy fs with
        | Some (n, e) =>
            (<[blobName := take n (Body response)]> files1,
             Some ("error copying a stream to a file: " +:+ e))
        | None => (<[blobName := Body response]> files1, None)
        end in
      match osfile.CloseFile fs with
      | Some _ => (files2, Exited 1)
      | None =>
          match osfile.CloseStream fs with
          | Some _ => (files2, Exited 1)
          | None => (files2, Returned result)
          end
      end
  end.





Definition createContainer (bs : blobStorage) (containerName : string)
  : option error :=
  match CreateContainer (Client bs) containerName with
  | Some e => Some ("error creating a blob container: " +:+ e)
  | None => None
  end.

End blobstorage_read.

(** ** Listings for the examples *)

Module listings.
Import azblob_read blobstorage_read.

(** An item as the service sends it, every pointer set. *)
Definition item (name : string) (modified : Z) : option BlobItem :=
  Some {| Name := Some name;
          Properties := Some {| LastModified := Some modified |} |}.

Definition info (containerName : string) (nt : string * Z) : BlobInfo :=
  {| info_Name := fst nt; FileURL := containerName +:+ "/" +:+ fst nt;
     info_LastModified := snd nt |}.

(** A page of such items; [None] is a response without segment. *)
Definition full_page (p : option (list (string * Z))) : page :=
  Page (option_map (map (fun nt => item (fst nt) (snd nt))) p).

Definition entries (ps : list (option (list (string * Z)))) : list (string * Z) :=
  List.concat (map (fun p => default [] p) ps).

Definition client_of (pages : list page) : blobStorage :=
  {| Client := paged_service pages None; BlobURLExpiryTime := 15 |}.

Definition storage (fault : option Go.error) : blobStorage :=
  {| Client := read_service fault; BlobURLExpiryTime := 15 |}.


End listings.

(** * Properties *)

Import Go rabbitmq.

(** ** Environment and integer parsing *)

Lemma Getenv_unset (env : gmap string string) (key : string) :
  env !! key = None -> Getenv env key = "".
Proof. intros H. unfold Getenv. now rewrite H. Qed.

Lemma Getenv_set (env : gmap string string) (key v : string) :
  env !! key = Some v -> Getenv env key = v.
Proof. intros H. unfold Getenv. now rewrite H. Qed.

(** Every path of [ParseInt] that reports an error fixes the value it
    returns with it: 0 with a syntax error, the extreme of the sign with a
    range error. *)
Lemma ParseInt_error_value (s : string) (e : strconv.NumError) :
  snd (strconv.ParseInt s) = Some e ->
  fst (strconv.ParseInt s)
  = match e with
    | strconv.ErrSyntax => 0
    | strconv.ErrRange => if strconv.negative s then - 2 ^ 63 else 2 ^ 63 - 1
    end.
Proof.
  unfold strconv.ParseInt, strconv.negative.
  destruct s as [|c0 rest]; [intros [= <-]; reflexivity|].
  destruct (strconv.ParseUint _) as [un [[|]|]]; cbv zeta;
    destruct (bool_decide (c0 = "-"%char)); cbn [negb andb];
    repeat match goal with
           | |- context [if ?b then _ else _] => destruct b
           end; cbn [fst snd]; intros H; simplify_eq; reflexivity.
Qed.

Lemma Atoi_error_value (s : string) (e : strconv.NumError) :
  snd (strconv.Atoi s) = Some e ->
  fst (strconv.Atoi s)
  = match e with
    | strconv.ErrSyntax => 0
    | strconv.ErrRange => if strconv.negative s then - 2 ^ 63 else 2 ^ 63 - 1
    end.
Proof.
  unfold strconv.Atoi.
  destruct (_ && _); [|apply ParseInt_error_value].
  destruct s as [|c0 rest]; [intros [= <-]; reflexivity|].
  destruct (_ && _); [intros [= <-]; reflexivity|].
  destruct (strconv.Atoi_fast_digits _ _); cbn [fst snd]; [discriminate|].
  intros [= <-]; reflexivity.
Qed.

(** What [New] returns once the broker URI is there. *)
Lemma New_with_uri (env : gmap string string) (conf0 : Config) (uri : string) :
  env !! "SRV_RMQ_URI" = Some uri -> uri <> "" ->
  exists rbm,
    New env conf0 = Returned rbm /\
    conn rbm = None /\ channel rbm = None /\
    RMQ_URI (conf rbm) = uri /\
    RMQ_MAXX_RECONNECT_TIMES (conf rbm) =
      (let v := Getenv env "SRV_RMQ_MAXX_RECONNECT_TIMES" in
       if bool_decide (v <> "") then fst (strconv.Atoi v)
       else DEFAULT_MAX_RECONNECT_TIMES).
Proof.
  intros Huri Hne. unfold New.
  rewrite (Getenv_set _ _ _ Huri).
  rewrite bool_decide_eq_true_2 by assumption.
  eexists; split; [reflexivity|].
  cbn. repeat split; now destruct (bool_decide _).
Qed.

(** ** Construction *)



(** C10, as stated, fails: a value of [SRV_RMQ_MAXX_RECONNECT_TIMES] that is
    not empty and that [strconv.Atoi] rejects does not always give a maximum
    of 0.  For twenty nines [Atoi] reports a range error next to the largest
    [int], and [New], which drops the error, configures 9223372036854775807
    attempts. *)
Lemma New_rejected_count_not_zero :
  "99999999999999999999" <> "" /\
  snd (strconv.Atoi "99999999999999999999") = Some strconv.ErrRange /\
  exists rbm,
    New {[ "SRV_RMQ_URI" := "amqp://guest@localhost:5672/";
           "SRV_RMQ_MAXX_RECONNECT_TIMES" := "99999999999999999999" ]}
        {| RMQ_URI := ""; RMQ_MAXX_RECONNECT_TIMES := 0 |} = Returned rbm /\
    RMQ_MAXX_RECONNECT_TIMES (conf rbm) = 9223372036854775807 /\
    RMQ_MAXX_RECONNECT_TIMES (conf rbm) <> 0.
Proof.
  split; [discriminate|]. split; [reflexivity|].
  eexists. split; [vm_compute; reflexivity|]. split; [reflexivity|discriminate].
Qed.

(** The range check of [ParseUint] comes before the remaining bytes are
    looked at: digits that overflow hide a later byte that is no digit. *)
Example Atoi_overflow_before_bad_byte :
  strconv.Atoi "99999999999999999999x" = (9223372036854775807, Some strconv.ErrRange) /\
  strconv.Atoi "-99999999999999999999" = (-9223372036854775808, Some strconv.ErrRange) /\
  strconv.Atoi "12x" = (0, Some strconv.ErrSyntax) /\
  strconv.Atoi "three" = (0, Some strconv.ErrSyntax) /\
  strconv.Atoi "-" = (0, Some strconv.ErrSyntax) /\
  strconv.Atoi "+5" = (5, None) /\
  strconv.Atoi "-12" = (-12, None).
Proof. repeat split; vm_compute; reflexivity. Qed.

(** C10, amended: when [SRV_RMQ_MAXX_RECONNECT_TIMES] is a non-empty string
    that [strconv.Atoi] rejects, [New] drops the error and still returns a
    manager.  The configured maximum is 0 when the rejection is a syntax
    error.  When the rejection is a range error it is the extreme [int] of
    the sign of the string: -2^63 when the string begins with a minus sign
    and 2^63-1 when it does not. *)
Theorem New_discards_parse_error
    (env : gmap string string) (conf0 : Config) (uri s : string)
    (e : strconv.NumError) :
  env !! "SRV_RMQ_URI" = Some uri -> uri <> "" ->
  env !! "SRV_RMQ_MAXX_RECONNECT_TIMES" = Some s -> s <> "" ->
  snd (strconv.Atoi s) = Some e ->
  exists rbm,
    New env conf0 = Returned rbm /\
    RMQ_MAXX_RECONNECT_TIMES (conf rbm)
    = match e with
      | strconv.ErrSyntax => 0
      | strconv.ErrRange => if strconv.negative s then - 2 ^ 63 else 2 ^ 63 - 1
      end.
Proof.
  intros Huri Hne Hs Hs0 He.
  destruct (New_with_uri env conf0 uri Huri Hne) as (rbm & HN & _ & _ & _ & Hm).
  exists rbm. split; [assumption|].
  rewrite Hm, (Getenv_set _ _ _ Hs). cbv zeta.
  rewrite bool_decide_eq_true_2 by assumption.
  apply Atoi_error_value, He.
Qed.

Lemma New_discards_parse_error_witness :
  (exists rbm,
      New {[ "SRV_RMQ_URI" := "amqp://guest@localhost:5672/";
             "SRV_RMQ_MAXX_RECONNECT_TIMES" := "three" ]}
          {| RMQ_URI := ""; RMQ_MAXX_RECONNECT_TIMES := 7 |} = Returned rbm /\
      RMQ_MAXX_RECONNECT_TIMES (conf rbm) = 0) /\
  (exists rbm,
      New {[ "SRV_RMQ_URI" := "amqp://guest@localhost:5672/";
             "SRV_RMQ_MAXX_RECONNECT_TIMES" := "-99999999999999999999" ]}
          {| RMQ_URI := ""; RMQ_MAXX_RECONNECT_TIMES := 7 |} = Returned rbm /\
      RMQ_MAXX_RECONNECT_TIMES (conf rbm) = -9223372036854775808) /\
  (exists rbm,
      New {[ "SRV_RMQ_URI" := "amqp://guest@localhost:5672/";
             "SRV_RMQ_MAXX_RECONNECT_TIMES" := "99999999999999999999" ]}
          {| RMQ_URI := ""; RMQ_MAXX_RECONNECT_TIMES := 7 |} = Returned rbm /\
      RMQ_MAXX_RECONNECT_TIMES (conf rbm) = 9223372036854775807).
Proof.
  split; [|split].
  - apply (New_discards_parse_error
             {[ "SRV_RMQ_URI" := "amqp://guest@localhost:5672/";
                "SRV_RMQ_MAXX_RECONNECT_TIMES" := "three" ]}
             {| RMQ_URI := ""; RMQ_MAXX_RECONNECT_TIMES := 7 |}
             "amqp://guest@localhost:5672/" "three" strconv.ErrSyntax);
      [reflexivity|discriminate|reflexivity|discriminate|reflexivity].
  - apply (New_discards_parse_error
             {[ "SRV_RMQ_URI" := "amqp://guest@localhost:5672/";
                "SRV_RMQ_MAXX_RECONNECT_TIMES" := "-99999999999999999999" ]}
             {| RMQ_URI := ""; RMQ_MAXX_RECONNECT_TIMES := 7 |}
             "amqp://guest@localhost:5672/" "-99999999999999999999" strconv.ErrRange);
      [reflexivity|discriminate|reflexivity|discriminate|reflexivity].
  - apply (New_discards_parse_error
             {[ "SRV_RMQ_URI" := "amqp://guest@localhost:5672/";
                "SRV_RMQ_MAXX_RECONNECT_TIMES" := "99999999999999999999" ]}
             {| RMQ_URI := ""; RMQ_MAXX_RECONNECT_TIMES := 7 |}
             "amqp://guest@localhost:5672/" "99999999999999999999" strconv.ErrRange);
      [reflexivity|discriminate|reflexivity|discriminate|reflexivity].
Defined.

(** ** Ending the process *)

Import azblob blobstorage.





(** ** Connect and the accessor *)

Import lifecycle scenarios.

Example New_env_default :
  New env_default {| RMQ_URI := ""; RMQ_MAXX_RECONNECT_TIMES := 0 |} = Returned fresh.
Proof. vm_compute. reflexivity. Qed.

Lemma Connect_success (b : Broker) (rbm : rbm_pool) :
  connect_err (Connect b rbm) = None ->
  exists c ch,
    Dial b (RMQ_URI (conf rbm)) = Opened c /\
    OpenChannel b c = Opened ch /\
    conn (pool (Connect b rbm)) = Some c /\
    channel (pool (Connect b rbm)) = Some ch /\
    spawned (Connect b rbm) = [WatchConnection c; WatchChannel ch].
Proof.
  unfold Connect.
  destruct (Dial b _) as [c|h e]; [|discriminate].
  destruct (OpenChannel b c) as [ch|h e] eqn:Hch; [|discriminate].
  intros _. exists c, ch. repeat split. exact Hch.
Qed.

Lemma Connect_keeps_conf (b : Broker) (rbm : rbm_pool) :
  conf (pool (Connect b rbm)) = conf rbm.
Proof.
  unfold Connect.
  destruct (Dial b _) as [c|h e]; [|reflexivity].
  destruct (OpenChannel b c); reflexivity.
Qed.

(** C2, as stated, fails: when the dial succeeds and the channel-open
    fails, [Connect] returns the error and the manager keeps the connection
    just dialled; it is not left with both handles null. *)
Lemma Connect_channel_failure_keeps_connection :
  connect_err (Connect (broker_no_channel 1) fresh)
    = Some "channel id space exhausted" /\
  conn (pool (Connect (broker_no_channel 1) fresh)) = Some (ConnectionId 1) /\
  channel (pool (Connect (broker_no_channel 1) fresh)) = None /\
  ~ both_null (pool (Connect (broker_no_channel 1) fresh)).
Proof.
  repeat split. intros [H _]. discriminate H.
Qed.

(** C2, amended: if the dial or the channel-open fails, [Connect] returns
    that error.  After a failed dial the connection handle is the one [Dial]
    handed back, the channel handle is as before the call, and no watcher is
    started.  After a failed channel-open the connection handle is the
    connection just dialled, which stays open and watched, and the channel
    handle is the one [Channel] handed back.  Both handles are null after
    the call exactly when the dial failed without handing back a handle and
    the channel handle was null before the call; the connection handle held
    before the call plays no part. *)
Theorem Connect_failure_state (b : Broker) (rbm : rbm_pool) :
  (forall h e,
      Dial b (RMQ_URI (conf rbm)) = Failed h e ->
      connect_err (Connect b rbm) = Some e /\
      conn (pool (Connect b rbm)) = h /\
      channel (pool (Connect b rbm)) = channel rbm /\
      spawned (Connect b rbm) = []) /\
  (forall c h e,
      Dial b (RMQ_URI (conf rbm)) = Opened c ->
      OpenChannel b c = Failed h e ->
      connect_err (Connect b rbm) = Some e /\
      conn (pool (Connect b rbm)) = Some c /\
      channel (pool (Connect b rbm)) = h /\
      spawned (Connect b rbm) = [WatchConnection c]) /\
  (both_null (pool (Connect b rbm)) <->
   (exists e, Dial b (RMQ_URI (conf rbm)) = Failed None e) /\
   channel rbm = None).
Proof.
  unfold Connect. repeat apply conj.
  - intros h e ->. repeat split.
  - intros c h e -> ->. repeat split.
  - intros [Hc Hch].
    destruct (Dial b (RMQ_URI (conf rbm))) as [c|h e].
    + destruct (OpenChannel b c); discriminate Hc.
    + cbn in Hc, Hch. subst h. split; [exists e; reflexivity|exact Hch].
  - intros [[e ->] Hch]. split; [reflexivity|exact Hch].
Qed.

Lemma Connect_failure_state_witness :
  (connect_err (Connect broker_down fresh) = Some "dial tcp: connection refused" /\
   conn (pool (Connect broker_down fresh)) = None /\
   channel (pool (Connect broker_down fresh)) = channel fresh /\
   spawned (Connect broker_down fresh) = []) /\
  both_null
    (pool (Connect broker_down (pool (Connect (broker_no_channel 1) fresh)))).
Proof.
  split.
  - apply (proj1 (Connect_failure_state broker_down fresh)). reflexivity.
  - apply (proj2 (proj2 (Connect_failure_state broker_down
                           (pool (Connect (broker_no_channel 1) fresh))))).
    split; [eexists; reflexivity|reflexivity].
Defined.

Lemma New_returns_null (env : gmap string string) (conf0 : Config) (rbm : rbm_pool) :
  New env conf0 = Returned rbm -> both_null rbm.
Proof.
  unfold New. destruct (bool_decide _); [|discriminate].
  intros [= <-]. split; reflexivity.
Qed.

Lemma after_Connect_live (b : Broker) (rbm : rbm_pool) :
  after_Connect (Connect b rbm) = Connected -> both_live (pool (Connect b rbm)).
Proof.
  unfold after_Connect.
  destruct (connect_err (Connect b rbm)) eqn:E; [discriminate|].
  intros _. destruct (Connect_success b rbm E) as (c & ch & _ & _ & Hc & Hch & _).
  split; [rewrite Hc|rewrite Hch]; eexists; reflexivity.
Qed.

Lemma after_Connect_at_rest (r : connect_result) :
  after_Connect r = Connected \/ after_Connect r = Disconnected.
Proof. unfold after_Connect. destruct (connect_err r); auto. Qed.

Lemma run_connected_live (bs : list Broker) :
  forall (rbm : rbm_pool) (st : State),
    (st = Connected -> both_live rbm) ->
    (st = Connected \/ st = Disconnected) ->
    (snd (run bs rbm st) = Connected -> both_live (fst (run bs rbm st))) /\
    (snd (run bs rbm st) = Connected \/ snd (run bs rbm st) = Disconnected).
Proof.
  induction bs as [|b bs IH]; intros rbm st Hlive Hrest; cbn [run].
  - split; assumption.
  - apply IH; [apply after_Connect_live|apply after_Connect_at_rest].
Qed.

(** C3, as stated, fails: a connected manager on which [Connect] is called
    again, the dial succeeding and the channel-open failing, is in the
    specification's state [Disconnected] and holds a non-null connection
    handle. *)
Lemma failed_Connect_breaks_state_invariant :
  let '(rbm, st) := run [broker_up 1; broker_no_channel 2] fresh Disconnected in
  st = Disconnected /\
  conn rbm = Some (ConnectionId 2) /\
  channel rbm = None /\
  ~ state_invariant st rbm.
Proof.
  cbn. repeat split. intros [_ H]. destruct (H eq_refl) as [Hc _]. discriminate Hc.
Qed.

(** C3, amended: the manager refers to at most one connection and one
    channel, the two fields of [rbm_pool]; a handle that [Connect] replaces
    is overwritten, not closed.  After [New] both handles are null.  After
    any sequence of [Connect] calls the manager is [Connected] or
    [Disconnected], and whenever it is [Connected], that is whenever the
    last [Connect] returned no error, both handles are non-null.  Nothing is
    promised about the handles after a [Connect] that returned an error. *)
Theorem handles_after_New_and_Connect
    (env : gmap string string) (conf0 : Config) (rbm0 : rbm_pool)
    (bs : list Broker) :
  New env conf0 = Returned rbm0 ->
  both_null rbm0 /\
  (snd (run bs rbm0 Disconnected) = Connected \/
   snd (run bs rbm0 Disconnected) = Disconnected) /\
  (snd (run bs rbm0 Disconnected) = Connected ->
   both_live (fst (run bs rbm0 Disconnected))).
Proof.
  intros HN. split; [exact (New_returns_null _ _ _ HN)|].
  destruct (run_connected_live bs rbm0 Disconnected) as [Hl Hr];
    [discriminate|now right|].
  split; assumption.
Qed.

Lemma handles_after_New_and_Connect_witness :
  both_null fresh /\
  (snd (run [broker_down; broker_up 4] fresh Disconnected) = Connected \/
   snd (run [broker_down; broker_up 4] fresh Disconnected) = Disconnected) /\
  (snd (run [broker_down; broker_up 4] fresh Disconnected) = Connected ->
   both_live (fst (run [broker_down; broker_up 4] fresh Disconnected))).
Proof.
  apply (handles_after_New_and_Connect env_default
           {| RMQ_URI := ""; RMQ_MAXX_RECONNECT_TIMES := 0 |}).
  vm_compute. reflexivity.
Defined.

(** C4, as stated, fails: [GetConnect] makes no check and returns no error.
    On a manager that was connected and whose next [Connect] failed at the
    dial, which the specification calls [Disconnected], it hands out the
    manager with the old channel handle still in it. *)
Lemma GetConnect_exposes_handle_while_disconnected :
  let '(rbm, st) := run [broker_up 1; broker_down] fresh Disconnected in
  st = Disconnected /\
  st <> Connected /\
  conn rbm = None /\
  GetConnect rbm = rbm /\
  exposed_channel rbm = Some (ChannelId 1).
Proof. cbn. repeat split. discriminate. Qed.

(** C4, amended: [GetConnect] returns the manager itself, whatever its
    state, and never an error.  After a [Connect] that returned no error the
    channel reached through it is the channel that this [Connect] opened;
    otherwise it is whatever the channel field holds, a null or a stale
    handle. *)
Theorem GetConnect_returns_manager (b : Broker) (rbm : rbm_pool) :
  GetConnect rbm = rbm /\
  exposed_channel rbm = channel rbm /\
  (connect_err (Connect b rbm) = None ->
   exists c ch,
     Dial b (RMQ_URI (conf rbm)) = Opened c /\
     OpenChannel b c = Opened ch /\
     exposed_channel (pool (Connect b rbm)) = Some ch).
Proof.
  repeat split. intros E.
  destruct (Connect_success b rbm E) as (c & ch & Hd & Ho & _ & Hch & _).
  exists c, ch. repeat split; assumption.
Qed.

Lemma GetConnect_returns_manager_witness :
  exists c ch,
    Dial (broker_up 9) (RMQ_URI (conf fresh)) = Opened c /\
    OpenChannel (broker_up 9) c = Opened ch /\
    exposed_channel (pool (Connect (broker_up 9) fresh)) = Some ch.
Proof.
  apply (proj2 (proj2 (GetConnect_returns_manager (broker_up 9) fresh))).
  reflexivity.
Defined.

(** ** The reconnect policy *)

Import reconnect.


Lemma New_default_count (env : gmap string string) (conf0 : Config) (rbm : rbm_pool) :
  New env conf0 = Returned rbm ->
  env !! "SRV_RMQ_MAXX_RECONNECT_TIMES" = None ->
  RMQ_MAXX_RECONNECT_TIMES (conf rbm) = 3.
Proof.
  unfold New. destruct (bool_decide (Getenv env "SRV_RMQ_URI" <> "")); [|discriminate].
  intros [= <-] Hmax. rewrite (Getenv_unset _ _ Hmax). reflexivity.
Qed.





(** A cycle that reconnects at the second attempt stops there. *)
Example reconnect_second_attempt :
  let cy := reconnect_cycle (fun k => if Nat.eqb k 1 then broker_up 5 else broker_down) fresh in
  attempts cy = 2%nat /\ reconnected cy = true /\ observed cy = [] /\
  conn (final cy) = Some (ConnectionId 5) /\ channel (final cy) = Some (ChannelId 5).
Proof. vm_compute. repeat split. Qed.

(** ** Batch declarations *)

Import topology.

Section BatchLemmas.
Context {W A : Type}.
Variable declare : A -> W -> W * option error.

Lemma outcomes_specs (specs : list A) :
  forall w, map fst (outcomes declare specs w) = specs.
Proof.
  induction specs as [|x rest IH]; intros w; cbn [outcomes]; [reflexivity|].
  destruct (declare x w) as [w1 e]. cbn. now rewrite IH.
Qed.

Lemma declare_each_state (specs : list A) :
  forall w,
    fst (declare_each declare specs w)
    = fold_left (fun w' x => fst (declare x w')) specs w.
Proof.
  induction specs as [|x rest IH]; intros w; cbn [declare_each fold_left];
    [reflexivity|].
  rewrite <- IH. destruct (declare x w) as [w1 e]. cbn [fst].
  now destruct (declare_each declare rest w1).
Qed.

Lemma declare_each_errors (specs : list A) :
  forall w,
    snd (declare_each declare specs w) = omap snd (outcomes declare specs w).
Proof.
  induction specs as [|x rest IH]; intros w; cbn [declare_each outcomes];
    [reflexivity|].
  destruct (declare x w) as [w1 e]. specialize (IH w1).
  destruct (declare_each declare rest w1) as [w2 errs]. cbn [snd] in *.
  rewrite IH. now destruct e.
Qed.

Lemma no_error_iff_all_succeed (os : list (A * option error)) :
  omap snd os = [] <-> Forall (fun r => snd r = None) os.
Proof.
  induction os as [|[x [e|]] os IH]; cbn.
  - split; auto.
  - split; [discriminate|]. intros H. inversion H; subst. discriminate.
  - rewrite IH. split; [intros H; constructor; auto|].
    intros H. now inversion H.
Qed.

Lemma declare_each_logged (tag : A -> item) (specs : list A) :
  forall w l,
    declare_each (logged tag declare) specs (w, l)
    = ((fst (declare_each declare specs w), (l ++ map tag specs)%list),
       snd (declare_each declare specs w)).
Proof.
  induction specs as [|x rest IH]; intros w l; cbn [declare_each map].
  - now rewrite app_nil_r.
  - unfold logged at 1. cbn [fst snd].
    destruct (declare x w) as [w1 e]. rewrite IH.
    destruct (declare_each declare rest w1) as [w2 errs]. cbn [fst snd].
    now rewrite <- app_assoc.
Qed.

End BatchLemmas.

(** C7: a batch declaration goes through the whole list.  Every spec is
    declared, in input order, also after one has failed, and the errors
    returned are the errors of the specs that failed, in input order; the
    list is empty exactly when every spec succeeded.  [CompleteDeclare]
    returns the errors of its two batches in the same way. *)
Theorem batch_declarations_never_abort {W : Type}
    (SimpleQueueDeclare : Queue -> W -> W * option error)
    (SimpleExchangeDeclare : Exchange -> W -> W * option error)
    (sq : list Queue) (ce : list Exchange) (w : W) :
  let qs := outcomes SimpleQueueDeclare sq w in
  let es := outcomes SimpleExchangeDeclare ce w in
  let w1 := fst (CompleteExchangeDeclare SimpleExchangeDeclare ce w) in
  let qs1 := outcomes SimpleQueueDeclare sq w1 in
  (map fst qs = sq /\
   fst (CompleteQueueDeclare SimpleQueueDeclare sq w)
     = fold_left (fun w' q => fst (SimpleQueueDeclare q w')) sq w /\
   snd (CompleteQueueDeclare SimpleQueueDeclare sq w) = omap snd qs /\
   (snd (CompleteQueueDeclare SimpleQueueDeclare sq w) = []
    <-> Forall (fun r => snd r = None) qs)) /\
  (map fst es = ce /\
   fst (CompleteExchangeDeclare SimpleExchangeDeclare ce w)
     = fold_left (fun w' e => fst (SimpleExchangeDeclare e w')) ce w /\
   snd (CompleteExchangeDeclare SimpleExchangeDeclare ce w) = omap snd es /\
   (snd (CompleteExchangeDeclare SimpleExchangeDeclare ce w) = []
    <-> Forall (fun r => snd r = None) es)) /\
  (map fst qs1 = sq /\
   fst (CompleteDeclare SimpleQueueDeclare SimpleExchangeDeclare sq ce w)
     = fold_left (fun w' q => fst (SimpleQueueDeclare q w')) sq w1 /\
   snd (CompleteDeclare SimpleQueueDeclare SimpleExchangeDeclare sq ce w)
     = (omap snd es ++ omap snd qs1)%list /\
   (snd (CompleteDeclare SimpleQueueDeclare SimpleExchangeDeclare sq ce w) = []
    <-> Forall (fun r => snd r = None) es /\ Forall (fun r => snd r = None) qs1)).
Proof.
  cbv zeta. unfold CompleteDeclare, CompleteQueueDeclare, CompleteExchangeDeclare.
  repeat apply conj;
    try apply outcomes_specs; try apply declare_each_state;
    try apply declare_each_errors;
    try (rewrite declare_each_errors; apply no_error_iff_all_succeed).
  - destruct (declare_each SimpleExchangeDeclare ce w) as [w1 errs_e]. cbn [fst].
    rewrite <- declare_each_state.
    now destruct (declare_each SimpleQueueDeclare sq w1).
  - rewrite <- !declare_each_errors.
    destruct (declare_each SimpleExchangeDeclare ce w) as [w1 errs_e]. cbn [fst].
    now destruct (declare_each SimpleQueueDeclare sq w1).
  - rewrite <- !no_error_iff_all_succeed, <- !declare_each_errors.
    destruct (declare_each SimpleExchangeDeclare ce w) as [w1 errs_e]. cbn [fst].
    destruct (declare_each SimpleQueueDeclare sq w1) as [w2 errs_q]. cbn [snd].
    intros H. now apply app_eq_nil in H.
  - rewrite <- !no_error_iff_all_succeed, <- !declare_each_errors.
    destruct (declare_each SimpleExchangeDeclare ce w) as [w1 errs_e]. cbn [fst].
    destruct (declare_each SimpleQueueDeclare sq w1) as [w2 errs_q]. cbn [snd].
    intros [-> ->]. reflexivity.
Qed.

Import orders.

Lemma batch_declarations_never_abort_witness :
  Forall (fun r => snd r = None)
         (outcomes toy_exchange_declare [orders_exchange] (∅ : gset string)).
Proof.
  pose proof (batch_declarations_never_abort
                toy_queue_declare toy_exchange_declare
                [orphan_queue; created_queue] [orders_exchange] ∅) as H.
  cbv zeta in H. destruct H as (_ & (_ & _ & _ & Hiff) & _).
  apply Hiff. reflexivity.
Defined.

(** The failure of the first queue does not keep the second from being
    declared, and the one error is that of the first. *)
Example failing_queue_does_not_stop_the_batch :
  outcomes toy_queue_declare [orphan_queue; created_queue] {[ "orders" ]}
    = [(orphan_queue, Some "no exchange for a bind of audit"); (created_queue, None)] /\
  snd (CompleteQueueDeclare toy_queue_declare [orphan_queue; created_queue] {[ "orders" ]})
    = ["no exchange for a bind of audit"].
Proof. split; vm_compute; reflexivity. Qed.

(** C8: [CompleteDeclare] performs every exchange declaration before any
    queue declaration: the broker receives the exchanges in their order and
    then the queues in theirs.  The queues are declared on the broker as the
    exchange batch left it, and the errors returned are those of the
    exchange batch followed by those of the queue batch. *)
Theorem CompleteDeclare_exchanges_first {W : Type}
    (SimpleQueueDeclare : Queue -> W -> W * option error)
    (SimpleExchangeDeclare : Exchange -> W -> W * option error)
    (cq : list Queue) (ce : list Exchange) (w : W) :
  let w1 := fst (CompleteExchangeDeclare SimpleExchangeDeclare ce w) in
  CompleteDeclare (logged QueueItem SimpleQueueDeclare)
                  (logged ExchangeItem SimpleExchangeDeclare) cq ce (w, [])
  = ((fst (CompleteDeclare SimpleQueueDeclare SimpleExchangeDeclare cq ce w),
      (map ExchangeItem ce ++ map QueueItem cq)%list),
     snd (CompleteDeclare SimpleQueueDeclare SimpleExchangeDeclare cq ce w)) /\
  fst (CompleteDeclare SimpleQueueDeclare SimpleExchangeDeclare cq ce w)
  = fst (CompleteQueueDeclare SimpleQueueDeclare cq w1) /\
  snd (CompleteDeclare SimpleQueueDeclare SimpleExchangeDeclare cq ce w)
  = (snd (CompleteExchangeDeclare SimpleExchangeDeclare ce w)
     ++ snd (CompleteQueueDeclare SimpleQueueDeclare cq w1))%list.
Proof.
  cbv zeta. unfold CompleteDeclare, CompleteQueueDeclare, CompleteExchangeDeclare.
  rewrite declare_each_logged.
  destruct (declare_each SimpleExchangeDeclare ce w) as [w1 errs_e]. cbn [fst snd].
  rewrite declare_each_logged.
  destruct (declare_each SimpleQueueDeclare cq w1) as [w2 errs_q].
  repeat split.
Qed.

(** With the exchanges first the bind of the queue finds its exchange; the
    queue batch run before the exchange batch does not. *)
Example exchange_first_matters :
  snd (CompleteDeclare toy_queue_declare toy_exchange_declare
         [created_queue] [orders_exchange] ∅) = [] /\
  snd (CompleteQueueDeclare toy_queue_declare [created_queue] ∅)
    = ["no exchange for a bind of orders.created"].
Proof. split; vm_compute; reflexivity. Qed.

(** ** Uploads *)

Lemma put_if_none_match (fault : option error) (containerName blobName : string)
    (data : list Byte.byte) (o : UploadOptions)
    (blobs : gmap blob_name (list Byte.byte)) :
  if_none_match o = Some ETagAny ->
  (is_Some (blobs !! (containerName, blobName)) ->
   fst (put fault containerName blobName data o blobs) = blobs /\
   snd (put fault containerName blobName data o blobs) <> None) /\
  (snd (put fault containerName blobName data o blobs) = None ->
   fault = None /\
   blobs !! (containerName, blobName) = None /\
   fst (put fault containerName blobName data o blobs)
   = <[(containerName, blobName) := data]> blobs) /\
  (fault = None -> blobs !! (containerName, blobName) = None ->
   put fault containerName blobName data o blobs
   = (<[(containerName, blobName) := data]> blobs, None)).
Proof.
  intros Ho. unfold put. rewrite Ho.
  rewrite (bool_decide_eq_true_2 _ eq_refl). cbn [andb].
  destruct fault as [e|].
  - split; [|split]; cbn; [intros _; split; [reflexivity|]| |]; discriminate.
  - destruct (blobs !! (containerName, blobName)) as [old|] eqn:E.
    + rewrite bool_decide_eq_true_2 by (eexists; reflexivity).
      split; [|split]; cbn; [intros _; split; [reflexivity|]| |]; discriminate.
    + rewrite bool_decide_eq_false_2 by (intros [? ?]; discriminate).
      split; [|split]; cbn.
      * intros [? ?]; discriminate.
      * intros _. repeat split.
      * reflexivity.
Qed.

(** C9: [UploadBlobBuffer] and [UploadBlobStream] send their write with the
    access condition if-none-match-any, whatever the client.  Against the
    service this is a conditional create: when a blob exists at the target
    name the upload returns an error and the blob is left as it is; an upload
    that returns no error found the name unoccupied and stored the data
    there; and on an unoccupied name, the service not failing otherwise, the
    upload succeeds. *)
Theorem uploads_are_conditional_creates
    (fault : option error) (blobName containerName : string)
    (data : list Byte.byte) (blobs : gmap blob_name (list Byte.byte)) :
  (exists o,
      if_none_match o = Some ETagAny /\
      forall bs,
        fst (UploadBlobBuffer bs blobName containerName data blobs)
          = fst (UploadBuffer bs containerName blobName data o blobs) /\
        (snd (UploadBlobBuffer bs blobName containerName data blobs) = None
         <-> snd (UploadBuffer bs containerName blobName data o blobs) = None) /\
        fst (UploadBlobStream bs blobName containerName data blobs)
          = fst (UploadStream bs containerName blobName data o blobs) /\
        (snd (UploadBlobStream bs blobName containerName data blobs) = None
         <-> snd (UploadStream bs containerName blobName data o blobs) = None)) /\
  (is_Some (blobs !! (containerName, blobName)) ->
   (exists e, UploadBlobBuffer (service fault) blobName containerName data blobs
              = (blobs, Some e)) /\
   (exists e, UploadBlobStream (service fault) blobName containerName data blobs
              = (blobs, Some e))) /\
  (snd (UploadBlobBuffer (service fault) blobName containerName data blobs) = None ->
   blobs !! (containerName, blobName) = None /\
   fst (UploadBlobBuffer (service fault) blobName containerName data blobs)
   = <[(containerName, blobName) := data]> blobs) /\
  (snd (UploadBlobStream (service fault) blobName containerName data blobs) = None ->
   blobs !! (containerName, blobName) = None /\
   fst (UploadBlobStream (service fault) blobName containerName data blobs)
   = <[(containerName, blobName) := data]> blobs) /\
  (fault = None -> blobs !! (containerName, blobName) = None ->
   UploadBlobBuffer (service fault) blobName containerName data blobs
   = (<[(containerName, blobName) := data]> blobs, None) /\
   UploadBlobStream (service fault) blobName containerName data blobs
   = (<[(containerName, blobName) := data]> blobs, None)).
Proof.
  set (o := {| AccessConditions :=
                 Some {| ModifiedAccessConditions :=
                           Some {| IfNoneMatch := Some ETagAny |} |};
               BlockSize := 0; Concurrency := 0 |}).
  assert (Ho : if_none_match o = Some ETagAny) by reflexivity.
  destruct (put_if_none_match fault containerName blobName data o blobs Ho)
    as (Hocc & Hok & Hfree).
  unfold UploadBlobBuffer, UploadBlobStream. fold o. cbn [service UploadBuffer UploadStream].
  split; [|split; [|split; [|split]]].
  - exists o. split; [exact Ho|]. intros bs.
    destruct (UploadBuffer bs _ _ _ _ _) as [b1 [e1|]];
      destruct (UploadStream bs _ _ _ _ _) as [b2 [e2|]];
      cbn; repeat split; discriminate.
  - intros Hex. destruct (Hocc Hex) as [Hs He].
    destruct (put fault containerName blobName data o blobs) as [b [e|]];
      cbn in *; [subst b|congruence].
    split; eexists; reflexivity.
  - destruct (put fault containerName blobName data o blobs) as [b [e|]];
      cbn in *; [discriminate|].
    intros _. destruct (Hok eq_refl) as (_ & ? & ?). split; assumption.
  - destruct (put fault containerName blobName data o blobs) as [b [e|]];
      cbn in *; [discriminate|].
    intros _. destruct (Hok eq_refl) as (_ & ? & ?). split; assumption.
  - intros Hf Hn. rewrite (Hfree Hf Hn). split; reflexivity.
Qed.

Lemma uploads_are_conditional_creates_witness :
  (exists e,
      UploadBlobBuffer (service None) "a.txt" "docs" [Byte.x68; Byte.x69]
        {[ ("docs", "a.txt") := [Byte.x6f; Byte.x6c; Byte.x64] ]}
      = ({[ ("docs", "a.txt") := [Byte.x6f; Byte.x6c; Byte.x64] ]}, Some e)) /\
  (exists e,
      UploadBlobStream (service None) "a.txt" "docs" [Byte.x68; Byte.x69]
        {[ ("docs", "a.txt") := [Byte.x6f; Byte.x6c; Byte.x64] ]}
      = ({[ ("docs", "a.txt") := [Byte.x6f; Byte.x6c; Byte.x64] ]}, Some e)).
Proof.
  apply (uploads_are_conditional_creates None "a.txt" "docs" [Byte.x68; Byte.x69]
           {[ ("docs", "a.txt") := [Byte.x6f; Byte.x6c; Byte.x64] ]}).
  vm_compute. eexists. reflexivity.
Defined.

(** [UploadFile] sends no access condition and replaces a blob that is
    there. *)
Example UploadFile_overwrites :
  UploadFile (service None) plenty
    {| os.WriteFile := None; os.Open := None; os.Close := None; os.Remove := None |}
    "a.txt" "docs" 2 {[ ("docs", "a.txt") := [Byte.x6f; Byte.x6c; Byte.x64] ]}
  = ({[ ("docs", "a.txt") := [Byte.x00; Byte.x00] ]}, Returned None).
Proof. vm_compute. reflexivity. Qed.

(** * Further properties of the code *)

(** ** New and the count it configures *)

Lemma New_returned_manager
    (env : gmap string string) (conf0 : Config) (rbm : rbm_pool) :
  New env conf0 = Returned rbm ->
  RMQ_URI (conf rbm) = Getenv env "SRV_RMQ_URI" /\
  RMQ_URI (conf rbm) <> "" /\
  conn rbm = None /\ channel rbm = None /\
  err rbm = [] /\ MAXX_RECONNECT_TIMES rbm = 0.
Proof.
  unfold New.
  destruct (bool_decide (Getenv env "SRV_RMQ_URI" <> "")) eqn:E; [|discriminate].
  apply bool_decide_eq_true_1 in E.
  intros [= <-]. cbn.
  assert (Hu : forall c1 c2 (b : bool),
             RMQ_URI c1 = RMQ_URI c2 ->
             RMQ_URI (if b then c1 else c2) = RMQ_URI c1)
    by (intros c1 c2 [|] H; congruence).
  rewrite Hu by reflexivity. cbn. repeat split. exact E.
Qed.

(** X1: [New] reads nothing from the [Config] it is given: the URI and the
    maximum of the manager come from the environment alone, so two calls
    under one environment end alike whatever the caller had configured.  A
    manager that is returned holds the URI of [SRV_RMQ_URI], no handle, no
    pending notification and a counter of 0. *)
Theorem New_ignores_caller_config
    (env : gmap string string) (conf1 conf2 : Config) :
  New env conf1 = New env conf2 /\
  (forall rbm,
      New env conf1 = Returned rbm ->
      RMQ_URI (conf rbm) = Getenv env "SRV_RMQ_URI" /\
      RMQ_URI (conf rbm) <> "" /\
      conn rbm = None /\ channel rbm = None /\
      err rbm = [] /\ MAXX_RECONNECT_TIMES rbm = 0).
Proof.
  split; [reflexivity|].
  intros rbm. apply New_returned_manager.
Qed.

Lemma New_ignores_caller_config_witness :
  RMQ_URI (conf fresh) = Getenv env_default "SRV_RMQ_URI" /\
  RMQ_URI (conf fresh) <> "" /\
  conn fresh = None /\ channel fresh = None /\
  err fresh = [] /\ MAXX_RECONNECT_TIMES fresh = 0.
Proof.
  apply (proj2 (New_ignores_caller_config env_default
                  {| RMQ_URI := "amqp://other"; RMQ_MAXX_RECONNECT_TIMES := 9 |}
                  {| RMQ_URI := ""; RMQ_MAXX_RECONNECT_TIMES := 0 |})).
  vm_compute. reflexivity.
Defined.

Import decimal.

Lemma digit_cases (d : Z) :
  is_digit d ->
  d = 0 \/ d = 1 \/ d = 2 \/ d = 3 \/ d = 4 \/ d = 5 \/ d = 6 \/ d = 7 \/ d = 8 \/ d = 9.
Proof. unfold is_digit. lia. Qed.

Lemma byte_of_digit_char (d : Z) :
  is_digit d ->
  strconv.byte_of (digit_char d) = 48 + d /\
  digit_char d <> "-"%char /\ digit_char d <> "+"%char.
Proof.
  intros H. destruct (digit_cases d H) as [->|[->|[->|[->|[->|[->|[->|[->|[->| ->]]]]]]]]];
    (split; [reflexivity|split; discriminate]).
Qed.

Lemma length_numeral (ds : list Z) :
  String.length (numeral ds) = List.length ds.
Proof. induction ds as [|d ds IH]; [reflexivity|]. cbn. f_equal. exact IH. Qed.

Lemma Atoi_fast_digits_numeral (ds : list Z) :
  Forall is_digit ds ->
  forall n, strconv.Atoi_fast_digits (numeral ds) n = Some (value_from ds n).
Proof.
  induction 1 as [|d ds Hd _ IH]; intros n; [reflexivity|].
  cbn [numeral fold_right strconv.Atoi_fast_digits].
  destruct (byte_of_digit_char d Hd) as (-> & _ & _).
  replace ((48 + d - 48) mod 256) with d
    by (unfold is_digit in Hd; rewrite Z.mod_small; lia).
  destruct (Z.ltb_spec 9 d) as [?|_]; [unfold is_digit in Hd; lia|].
  apply IH.
Qed.

Lemma value_from_nonneg (ds : list Z) :
  Forall is_digit ds -> forall n, 0 <= n -> 0 <= value_from ds n.
Proof.
  induction 1 as [|d ds Hd _ IH]; intros n Hn; [exact Hn|].
  apply IH. unfold is_digit in Hd. lia.
Qed.

(** [Atoi] on an optional minus sign followed by one to seventeen digits. *)
Lemma Atoi_signed_numeral (neg : bool) (ds : list Z) :
  Forall is_digit ds -> ds <> [] -> (List.length ds <= 17)%nat ->
  strconv.Atoi ((if neg then "-" else "") +:+ numeral ds)
  = (if neg then - value ds else value ds, None).
Proof.
  intros Hds Hne Hlen.
  destruct ds as [|d ds]; [congruence|].
  pose proof (Forall_inv Hds) as Hd.
  destruct (byte_of_digit_char d Hd) as (_ & Hm & Hp).
  unfold strconv.Atoi.
  destruct neg.
  - change ("-" +:+ numeral (d :: ds)) with (String "-" (numeral (d :: ds))).
    cbn [String.length]. rewrite length_numeral.
    replace ((0 <? Z.of_nat (S (List.length (d :: ds)))) &&
             (Z.of_nat (S (List.length (d :: ds))) <? 19)) with true
      by (symmetry; apply andb_true_iff; split; apply Z.ltb_lt; cbn in *; lia).
    rewrite (bool_decide_eq_true_2 _ eq_refl). cbn [orb andb].
    rewrite length_numeral.
    replace (Z.of_nat (List.length (d :: ds)) <? 1) with false
      by (symmetry; apply Z.ltb_ge; cbn; lia).
    rewrite (Atoi_fast_digits_numeral _ Hds). reflexivity.
  - change ("" +:+ numeral (d :: ds)) with (String (digit_char d) (numeral ds)).
    cbn [String.length]. rewrite length_numeral.
    replace ((0 <? Z.of_nat (S (List.length ds))) && (Z.of_nat (S (List.length ds)) <? 19))
      with true
      by (symmetry; apply andb_true_iff; split; apply Z.ltb_lt; cbn in *; lia).
    rewrite !bool_decide_eq_false_2 by assumption. cbn [orb andb].
    change (String (digit_char d) (numeral ds)) with (numeral (d :: ds)).
    rewrite (Atoi_fast_digits_numeral _ Hds). reflexivity.
Qed.

(** X2: a count written as one to seventeen decimal digits, with or without
    a minus sign, is configured as it stands.  [New] checks nothing: zero and
    negative maxima are accepted. *)
Theorem New_takes_signed_decimal
    (env : gmap string string) (conf0 : Config) (uri : string)
    (neg : bool) (ds : list Z) :
  env !! "SRV_RMQ_URI" = Some uri -> uri <> "" ->
  Forall is_digit ds -> ds <> [] -> (List.length ds <= 17)%nat ->
  env !! "SRV_RMQ_MAXX_RECONNECT_TIMES"
    = Some ((if neg then "-" else "") +:+ numeral ds) ->
  exists rbm,
    New env conf0 = Returned rbm /\
    RMQ_MAXX_RECONNECT_TIMES (conf rbm) = (if neg then - value ds else value ds) /\
    (if neg then RMQ_MAXX_RECONNECT_TIMES (conf rbm) <= 0
     else 0 <= RMQ_MAXX_RECONNECT_TIMES (conf rbm)).
Proof.
  intros Huri Hne Hds Hnil Hlen Hs.
  destruct (New_with_uri env conf0 uri Huri Hne) as (rbm & HN & _ & _ & _ & Hm).
  exists rbm. split; [assumption|].
  rewrite Hm, (Getenv_set _ _ _ Hs). cbv zeta.
  assert (Hnonempty : (if neg then "-" else "") +:+ numeral ds <> "").
  { destruct ds as [|d ds]; [congruence|]. destruct neg; discriminate. }
  rewrite bool_decide_eq_true_2 by assumption.
  rewrite (Atoi_signed_numeral neg ds Hds Hnil Hlen). cbn [fst].
  split; [reflexivity|].
  pose proof (value_from_nonneg ds Hds 0 (Z.le_refl 0)) as Hv. fold (value ds) in Hv.
  destruct neg; lia.
Qed.

Lemma New_takes_signed_decimal_witness :
  exists rbm,
    New {[ "SRV_RMQ_URI" := "amqp://guest@localhost:5672/";
           "SRV_RMQ_MAXX_RECONNECT_TIMES" := "-25" ]}
        {| RMQ_URI := ""; RMQ_MAXX_RECONNECT_TIMES := 0 |} = Returned rbm /\
    RMQ_MAXX_RECONNECT_TIMES (conf rbm) = -25 /\
    RMQ_MAXX_RECONNECT_TIMES (conf rbm) <= 0.
Proof.
  apply (New_takes_signed_decimal
           {[ "SRV_RMQ_URI" := "amqp://guest@localhost:5672/";
              "SRV_RMQ_MAXX_RECONNECT_TIMES" := "-25" ]}
           {| RMQ_URI := ""; RMQ_MAXX_RECONNECT_TIMES := 0 |}
           "amqp://guest@localhost:5672/" true [2; 5]).
  - reflexivity.
  - discriminate.
  - repeat constructor; unfold is_digit; lia.
  - discriminate.
  - cbn. lia.
  - reflexivity.
Defined.

(** ** Connect, further *)

Import sessions.

(** X3: [Connect] returns a nil error exactly when the dial succeeds and
    the channel opens on the connection just dialled; the manager then holds
    these two handles and one watcher runs for each.  With a failed dial the
    channel is not asked for, whatever the broker would answer. *)
Theorem Connect_succeeds_iff (b : Broker) (rbm : rbm_pool) :
  (connect_err (Connect b rbm) = None <->
   exists c ch,
     Dial b (RMQ_URI (conf rbm)) = Opened c /\ OpenChannel b c = Opened ch) /\
  (forall c ch,
      Dial b (RMQ_URI (conf rbm)) = Opened c -> OpenChannel b c = Opened ch ->
      conn (pool (Connect b rbm)) = Some c /\
      channel (pool (Connect b rbm)) = Some ch /\
      spawned (Connect b rbm) = [WatchConnection c; WatchChannel ch]) /\
  (forall b',
      Dial b' = Dial b ->
      error_of (Dial b (RMQ_URI (conf rbm))) <> None ->
      Connect b' rbm = Connect b rbm).
Proof.
  split; [split|split].
  - intros E. destruct (Connect_success b rbm E) as (c & ch & Hd & Ho & _).
    exists c, ch. split; assumption.
  - intros (c & ch & Hd & Ho). unfold Connect. now rewrite Hd, Ho.
  - intros c ch Hd Ho. unfold Connect. rewrite Hd, Ho. repeat split.
  - intros b' Hb He. unfold Connect. rewrite Hb.
    destruct (Dial b (RMQ_URI (conf rbm))); [cbn in He; congruence|reflexivity].
Qed.

Lemma Connect_succeeds_iff_witness :
  connect_err (Connect (broker_up 3) fresh) = None /\
  conn (pool (Connect (broker_up 3) fresh)) = Some (ConnectionId 3) /\
  channel (pool (Connect (broker_up 3) fresh)) = Some (ChannelId 3) /\
  spawned (Connect (broker_up 3) fresh)
    = [WatchConnection (ConnectionId 3); WatchChannel (ChannelId 3)].
Proof.
  destruct (Connect_succeeds_iff (broker_up 3) fresh) as (Hiff & Hok & _).
  split.
  - apply Hiff. exists (ConnectionId 3), (ChannelId 3). split; reflexivity.
  - apply Hok; reflexivity.
Defined.

(** X4: whatever its outcome, [Connect] writes the two handles only: the
    configuration, the pending notifications and the counter of the manager
    are those of before the call. *)
Theorem Connect_writes_only_handles (b : Broker) (rbm : rbm_pool) :
  conf (pool (Connect b rbm)) = conf rbm /\
  err (pool (Connect b rbm)) = err rbm /\
  MAXX_RECONNECT_TIMES (pool (Connect b rbm)) = MAXX_RECONNECT_TIMES rbm.
Proof.
  unfold Connect.
  destruct (Dial b _) as [c|h e]; [|repeat split].
  destruct (OpenChannel b c); repeat split.
Qed.

(** X5: on a manager that [New] returned, [Connect] dials the URI of
    [SRV_RMQ_URI], whatever URI the caller's [Config] held: a failure of
    that dial is the error of [Connect], and when that dial and the channel
    succeed the manager holds their handles. *)
Theorem Connect_after_New_dials_environment_uri
    (env : gmap string string) (conf0 : Config) (rbm : rbm_pool) (b : Broker) :
  New env conf0 = Returned rbm ->
  (forall h e,
      Dial b (Getenv env "SRV_RMQ_URI") = Failed h e ->
      connect_err (Connect b rbm) = Some e /\
      conn (pool (Connect b rbm)) = h /\
      channel (pool (Connect b rbm)) = None) /\
  (forall c ch,
      Dial b (Getenv env "SRV_RMQ_URI") = Opened c ->
      OpenChannel b c = Opened ch ->
      connect_err (Connect b rbm) = None /\
      conn (pool (Connect b rbm)) = Some c /\
      channel (pool (Connect b rbm)) = Some ch).
Proof.
  intros HN.
  destruct (New_returned_manager env conf0 rbm HN) as (Hu & _ & _ & Hch & _).
  unfold Connect. rewrite Hu. split.
  - intros h e ->. repeat split. exact Hch.
  - intros c ch -> ->. repeat split.
Qed.

Lemma Connect_after_New_dials_environment_uri_witness :
  connect_err (Connect broker_down fresh) = Some "dial tcp: connection refused" /\
  conn (pool (Connect broker_down fresh)) = None /\
  channel (pool (Connect broker_down fresh)) = None.
Proof.
  apply (proj1 (Connect_after_New_dials_environment_uri env_default
                  {| RMQ_URI := "amqp://other"; RMQ_MAXX_RECONNECT_TIMES := 0 |}
                  fresh broker_down eq_refl)).
  reflexivity.
Defined.

Lemma run_pool_conf (bs : list Broker) :
  forall rbm, conf (run_pool bs rbm) = conf rbm.
Proof.
  induction bs as [|b bs IH]; intros rbm; cbn [run_pool]; [reflexivity|].
  rewrite IH. apply Connect_keeps_conf.
Qed.

Lemma filter_watchers_Connect (b : Broker) (rbm : rbm_pool) :
  List.length (List.filter watches_connection (spawned (Connect b rbm)))
  = if dial_ok (RMQ_URI (conf rbm)) b then 1%nat else 0%nat.
Proof.
  unfold Connect, dial_ok.
  destruct (Dial b _) as [c|h e]; [|reflexivity].
  destruct (OpenChannel b c); reflexivity.
Qed.

(** X6: [Connect] never closes what an earlier call opened.  Over any
    sequence of calls on one manager, the connection watchers started are as
    many as the dials that succeeded, while the manager refers to one
    connection at most; the URI dialled stays the configured one. *)
Theorem connection_watchers_accumulate (bs : list Broker) (rbm : rbm_pool) :
  List.length (List.filter watches_connection (run_spawned bs rbm))
  = List.length (List.filter (dial_ok (RMQ_URI (conf rbm))) bs) /\
  conf (run_pool bs rbm) = conf rbm.
Proof.
  split; [|apply run_pool_conf].
  revert rbm. induction bs as [|b bs IH]; intros rbm; [reflexivity|].
  cbn [run_spawned List.filter].
  rewrite List.filter_app, List.length_app, filter_watchers_Connect, IH.
  rewrite Connect_keeps_conf.
  destruct (dial_ok (RMQ_URI (conf rbm)) b); reflexivity.
Qed.

(** Two successful calls leave two watched connections, and the manager
    refers to the second. *)
Example second_Connect_leaves_first_connection :
  run_spawned [broker_up 1; broker_up 2] fresh
    = [WatchConnection (ConnectionId 1); WatchChannel (ChannelId 1);
       WatchConnection (ConnectionId 2); WatchChannel (ChannelId 2)] /\
  conn (run_pool [broker_up 1; broker_up 2] fresh) = Some (ConnectionId 2).
Proof. split; reflexivity. Qed.

(** ** Listing blobs *)

Lemma append_items_full (containerName : string) (l : list (string * Z)) :
  forall blobs,
    blobstorage_read.append_items containerName
      (map (fun nt => listings.item (fst nt) (snd nt)) l) blobs
    = Some (blobs ++ map (listings.info containerName) l)%list.
Proof.
  induction l as [|[n t] l IH]; intros blobs; cbn [map].
  - cbn. now rewrite app_nil_r.
  - cbn [blobstorage_read.append_items]. unfold listings.item at 1.
    cbn [blobstorage_read.blob_info azblob_read.Name azblob_read.Properties
         azblob_read.LastModified fst snd].
    rewrite IH, <- app_assoc. reflexivity.
Qed.

Lemma append_items_nil_pointer (containerName : string) (l : list (string * Z))
    (bad : option azblob_read.BlobItem) (more : list (option azblob_read.BlobItem)) :
  blobstorage_read.blob_info containerName bad = None ->
  forall blobs,
    blobstorage_read.append_items containerName
      (map (fun nt => listings.item (fst nt) (snd nt)) l ++ bad :: more)%list blobs
    = None.
Proof.
  intros Hbad. induction l as [|[n t] l IH]; intros blobs; cbn [map app].
  - cbn [blobstorage_read.append_items]. now rewrite Hbad.
  - cbn [blobstorage_read.append_items]. unfold listings.item at 1.
    cbn [blobstorage_read.blob_info azblob_read.Name azblob_read.Properties
         azblob_read.LastModified fst snd].
    apply IH.
Qed.

Lemma ListBlobs_pages_full (containerName : string)
    (ps : list (option (list (string * Z)))) (tail : list azblob_read.page) :
  forall blobs,
    blobstorage_read.ListBlobs_pages containerName
      (map listings.full_page ps ++ tail)%list blobs
    = blobstorage_read.ListBlobs_pages containerName tail
        (blobs ++ map (listings.info containerName) (listings.entries ps))%list.
Proof.
  induction ps as [|[l|] ps IH]; intros blobs; cbn [map app].
  - cbn. now rewrite app_nil_r.
  - unfold listings.full_page at 1. cbn [option_map].
    cbn [blobstorage_read.ListBlobs_pages].
    rewrite append_items_full, IH.
    unfold listings.entries. cbn [map List.concat default].
    now rewrite map_app, app_assoc.
  - unfold listings.full_page at 1. cbn [option_map].
    cbn [blobstorage_read.ListBlobs_pages]. rewrite IH. reflexivity.
Qed.

(** X7: when every page arrives and every item carries its name and its
    modification time, [ListBlobs] returns one entry per item of every page,
    in page order and item order, and no error.  The entry of a blob has its
    name, its time and the URL made of the container name, a slash and the
    blob name; a response without segment adds nothing.  The listing is
    asked with snapshots and versions included. *)
Theorem ListBlobs_returns_every_item
    (bs : blobstorage_read.blobStorage) (containerName : string)
    (ps : list (option (list (string * Z)))) :
  azblob_read.NewListBlobsFlatPager (blobstorage_read.Client bs) containerName
    {| azblob_read.Snapshots := true; azblob_read.Versions := true |}
  = map listings.full_page ps ->
  blobstorage_read.ListBlobs bs containerName
  = Returned (map (listings.info containerName) (listings.entries ps), None) /\
  Forall (fun i => blobstorage_read.FileURL i
                   = containerName +:+ "/" +:+ blobstorage_read.info_Name i)
         (map (listings.info containerName) (listings.entries ps)).
Proof.
  intros Hp. split.
  - unfold blobstorage_read.ListBlobs. rewrite Hp.
    rewrite <- (app_nil_r (map listings.full_page ps)).
    rewrite ListBlobs_pages_full. reflexivity.
  - apply Forall_forall. intros i Hi. apply list_elem_of_In, in_map_iff in Hi.
    destruct Hi as (nt & <- & _). reflexivity.
Qed.

Lemma ListBlobs_returns_every_item_witness :
  blobstorage_read.ListBlobs
    (listings.client_of
       (map listings.full_page [Some [("a.txt", 10); ("b.txt", 20)]; None; Some [("c.txt", 30)]]))
    "docs"
  = Returned
      (map (listings.info "docs") [("a.txt", 10); ("b.txt", 20); ("c.txt", 30)], None) /\
  Forall (fun i => blobstorage_read.FileURL i
                   = "docs" +:+ "/" +:+ blobstorage_read.info_Name i)
         (map (listings.info "docs") [("a.txt", 10); ("b.txt", 20); ("c.txt", 30)]).
Proof.
  apply (ListBlobs_returns_every_item
           (listings.client_of
              (map listings.full_page
                 [Some [("a.txt", 10); ("b.txt", 20)]; None; Some [("c.txt", 30)]]))
           "docs" [Some [("a.txt", 10); ("b.txt", 20)]; None; Some [("c.txt", 30)]]).
  reflexivity.
Defined.

(** X8: when a page fails, [ListBlobs] returns the error of that page,
    prefixed, and no entry at all: what the earlier pages gave is dropped,
    and the pages after the failed one are not asked for. *)
Theorem ListBlobs_page_error_drops_everything
    (bs : blobstorage_read.blobStorage) (containerName : string)
    (ps : list (option (list (string * Z)))) (e : error)
    (rest : list azblob_read.page) :
  azblob_read.NewListBlobsFlatPager (blobstorage_read.Client bs) containerName
    {| azblob_read.Snapshots := true; azblob_read.Versions := true |}
  = (map listings.full_page ps ++ azblob_read.PageError e :: rest)%list ->
  blobstorage_read.ListBlobs bs containerName
  = Returned ([], Some ("error listing blobs: " +:+ e)).
Proof.
  intros Hp. unfold blobstorage_read.ListBlobs.
  rewrite Hp, ListBlobs_pages_full. reflexivity.
Qed.

Lemma ListBlobs_page_error_drops_everything_witness :
  blobstorage_read.ListBlobs
    (listings.client_of
       (map listings.full_page [Some [("a.txt", 10)]]
        ++ azblob_read.PageError "context deadline exceeded"
        :: map listings.full_page [Some [("z.txt", 90)]])%list)
    "docs"
  = Returned ([], Some "error listing blobs: context deadline exceeded").
Proof.
  apply (ListBlobs_page_error_drops_everything
           (listings.client_of
              (map listings.full_page [Some [("a.txt", 10)]]
               ++ azblob_read.PageError "context deadline exceeded"
               :: map listings.full_page [Some [("z.txt", 90)]])%list)
           "docs" [Some [("a.txt", 10)]] "context deadline exceeded"
           (map listings.full_page [Some [("z.txt", 90)]])).
  reflexivity.
Defined.

(** X9: [ListBlobs] follows the pointers of an item without a check.  An
    item that is nil, or whose name, properties or modification time is nil,
    makes the call panic when the loop reaches it, whatever was listed
    before and whatever follows. *)
Theorem ListBlobs_nil_pointer_panics
    (bs : blobstorage_read.blobStorage) (containerName : string)
    (ps : list (option (list (string * Z)))) (l : list (string * Z))
    (bad : option azblob_read.BlobItem)
    (more : list (option azblob_read.BlobItem)) (rest : list azblob_read.page) :
  (bad = None \/
   exists it, bad = Some it /\
     (azblob_read.Name it = None \/ azblob_read.Properties it = None \/
      exists props, azblob_read.Properties it = Some props /\
                    azblob_read.LastModified props = None)) ->
  azblob_read.NewListBlobsFlatPager (blobstorage_read.Client bs) containerName
    {| azblob_read.Snapshots := true; azblob_read.Versions := true |}
  = (map listings.full_page ps
     ++ azblob_read.Page
          (Some (map (fun nt => listings.item (fst nt) (snd nt)) l ++ bad :: more)%list)
     :: rest)%list ->
  blobstorage_read.ListBlobs bs containerName
  = Panicked blobstorage_read.nil_dereference /\
  ends_process (blobstorage_read.ListBlobs bs containerName) = true.
Proof.
  intros Hbad Hp.
  assert (Hnone : blobstorage_read.blob_info containerName bad = None).
  { destruct Hbad as [->|(it & -> & H)]; [reflexivity|].
    unfold blobstorage_read.blob_info.
    destruct H as [->|[->|(props & -> & H)]].
    - reflexivity.
    - now destruct (azblob_read.Name it).
    - rewrite H. now destruct (azblob_read.Name it). }
  assert (E : blobstorage_read.ListBlobs bs containerName
              = Panicked blobstorage_read.nil_dereference).
  { unfold blobstorage_read.ListBlobs. rewrite Hp, ListBlobs_pages_full.
    cbn [blobstorage_read.ListBlobs_pages].
    now rewrite (append_items_nil_pointer _ _ _ _ Hnone). }
  rewrite E. split; reflexivity.
Qed.

Lemma ListBlobs_nil_pointer_panics_witness :
  blobstorage_read.ListBlobs
    (listings.client_of
       [azblob_read.Page
          (Some [listings.item "a.txt" 10;
                 Some {| azblob_read.Name := Some "b.txt";
                         azblob_read.Properties := None |}])])
    "docs"
  = Panicked blobstorage_read.nil_dereference /\
  ends_process
    (blobstorage_read.ListBlobs
       (listings.client_of
          [azblob_read.Page
             (Some [listings.item "a.txt" 10;
                    Some {| azblob_read.Name := Some "b.txt";
                            azblob_read.Properties := None |}])])
       "docs") = true.
Proof.
  apply (ListBlobs_nil_pointer_panics
           (listings.client_of
              [azblob_read.Page
                 (Some [listings.item "a.txt" 10;
                        Some {| azblob_read.Name := Some "b.txt";
                                azblob_read.Properties := None |}])])
           "docs" [] [("a.txt", 10)]
           (Some {| azblob_read.Name := Some "b.txt"; azblob_read.Properties := None |})
           [] []).
  - right. eexists. split; [reflexivity|]. right. left. reflexivity.
  - reflexivity.
Defined.

(** ** Uploads and downloads together *)

Lemma conditional_upload_result (fault : option error)
    (blobName containerName : string) (data : list Byte.byte)
    (blobs : gmap blob_name (list Byte.byte)) :
  fst (UploadBlobStream (service fault) blobName containerName data blobs)
  = fst (UploadBlobBuffer (service fault) blobName containerName data blobs) /\
  (snd (UploadBlobStream (service fault) blobName containerName data blobs) = None ->
   snd (UploadBlobBuffer (service fault) blobName containerName data blobs) = None) /\
  (snd (UploadBlobBuffer (service fault) blobName containerName data blobs) = None ->
   fst (UploadBlobBuffer (service fault) blobName containerName data blobs)
   = <[(containerName, blobName) := data]> blobs) /\
  (snd (UploadBlobBuffer (service fault) blobName containerName data blobs) <> None ->
   fst (UploadBlobBuffer (service fault) blobName containerName data blobs) = blobs).
Proof.
  unfold UploadBlobBuffer, UploadBlobStream.
  cbn [service UploadBuffer UploadStream].
  unfold put. destruct fault as [e|]; [cbn; repeat split; congruence|].
  destruct (_ && _); cbn; repeat split; congruence.
Qed.

(** X10: [UploadFile] sends [blobSize] zero bytes and no access condition.
    For a size from 0 to the allocation limit that finds its memory, and
    with the local file calls and the service answering well, the blob at
    the target name holds these zeros afterwards, whether or not a blob was
    there before: unlike the two conditional uploads it replaces an existing
    blob. *)
Theorem UploadFile_replaces_with_zeros
    (mem : Memory) (fs : os.Files) (blobName containerName : string)
    (blobSize : Z) (blobs : gmap blob_name (list Byte.byte)) :
  0 <= blobSize <= maxAlloc mem -> exhausted mem blobSize = false ->
  os.WriteFile fs = None -> os.Open fs = None ->
  os.Remove fs = None -> os.Close fs = None ->
  UploadFile (service None) mem fs blobName containerName blobSize blobs
  = (<[(containerName, blobName) := repeat Byte.x00 (Z.to_nat blobSize)]> blobs,
     Returned None) /\
  fst (UploadFile (service None) mem fs blobName containerName blobSize blobs)
    !! (containerName, blobName)
  = Some (repeat Byte.x00 (Z.to_nat blobSize)) /\
  (is_Some (blobs !! (containerName, blobName)) ->
   forall data,
     snd (UploadBlobBuffer (service None) blobName containerName data blobs) <> None).
Proof.
  intros Hn Hex Hw Ho Hr Hc.
  assert (E : UploadFile (service None) mem fs blobName containerName blobSize blobs
              = (<[(containerName, blobName) := repeat Byte.x00 (Z.to_nat blobSize)]> blobs,
                 Returned None)).
  { unfold UploadFile, make_bytes.
    destruct (Z.ltb_spec blobSize 0) as [?|_]; [lia|].
    destruct (Z.ltb_spec (maxAlloc mem) blobSize) as [?|_]; [lia|].
    cbn [orb]. rewrite Hex, Hw, Ho, Hr, Hc. reflexivity. }
  rewrite E. split; [reflexivity|]. split; [apply lookup_insert_eq|].
  intros Hexists data. unfold UploadBlobBuffer. cbn [service UploadBuffer].
  unfold put. cbn [if_none_match AccessConditions ModifiedAccessConditions IfNoneMatch].
  rewrite (bool_decide_eq_true_2 _ eq_refl), (bool_decide_eq_true_2 _ Hexists).
  cbn. discriminate.
Qed.

Lemma UploadFile_replaces_with_zeros_witness :
  UploadFile (service None) plenty
    {| os.WriteFile := None; os.Open := None; os.Close := None; os.Remove := None |}
    "a.txt" "docs" 3 {[ ("docs", "a.txt") := [Byte.x6f; Byte.x6c; Byte.x64] ]}
  = (<[("docs", "a.txt") := repeat Byte.x00 (Z.to_nat 3)]>
       {[ ("docs", "a.txt") := [Byte.x6f; Byte.x6c; Byte.x64] ]},
     Returned None).
Proof.
  apply (UploadFile_replaces_with_zeros plenty
           {| os.WriteFile := None; os.Open := None; os.Close := None; os.Remove := None |}
           "a.txt" "docs" 3 {[ ("docs", "a.txt") := [Byte.x6f; Byte.x6c; Byte.x64] ]});
    [cbn; lia|reflexivity..].
Defined.

(** X11: [DownloadBlob] reads back what the uploads stored.  After an upload
    through [UploadBlobBuffer] or [UploadBlobStream] that returned no error,
    a download under the same blob name and container name returns the
    uploaded bytes; after an upload that was refused the download returns the
    bytes that were there before; and for a name that holds no blob the
    download returns no response and the prefixed error of the service. *)
Theorem DownloadBlob_reads_uploaded
    (fault : option error) (blobInfo : blobstorage_read.BlobInfo)
    (containerName : string) (data : list Byte.byte)
    (blobs : gmap blob_name (list Byte.byte)) :
  let blobName := blobstorage_read.info_Name blobInfo in
  let after_buffer := UploadBlobBuffer (service fault) blobName containerName data blobs in
  let after_stream := UploadBlobStream (service fault) blobName containerName data blobs in
  (snd after_buffer = None ->
   blobstorage_read.DownloadBlob (listings.storage None) blobInfo containerName
     (fst after_buffer)
   = (Some {| azblob_read.Body := data |}, None)) /\
  (snd after_stream = None ->
   blobstorage_read.DownloadBlob (listings.storage None) blobInfo containerName
     (fst after_stream)
   = (Some {| azblob_read.Body := data |}, None)) /\
  (forall old,
      blobs !! (containerName, blobName) = Some old ->
      snd after_buffer <> None /\
      blobstorage_read.DownloadBlob (listings.storage None) blobInfo containerName
        (fst after_buffer)
      = (Some {| azblob_read.Body := old |}, None)) /\
  (blobs !! (containerName, blobName) = None ->
   blobstorage_read.DownloadBlob (listings.storage None) blobInfo containerName blobs
   = (None, Some "error downloading blob: BlobNotFound")).
Proof.
  cbv zeta.
  destruct (conditional_upload_result fault (blobstorage_read.info_Name blobInfo)
              containerName data blobs) as (Hs & Hsn & Hok & Hko).
  assert (Hget : forall m d,
             m !! (containerName, blobstorage_read.info_Name blobInfo) = Some d ->
             blobstorage_read.DownloadBlob (listings.storage None) blobInfo containerName m
             = (Some {| azblob_read.Body := d |}, None)).
  { intros m d Hm. unfold blobstorage_read.DownloadBlob. cbn. unfold azblob_read.get.
    now rewrite Hm. }
  split; [|split; [|split]].
  - intros E. apply Hget. rewrite (Hok E). apply lookup_insert_eq.
  - intros E. apply Hget. rewrite Hs, (Hok (Hsn E)). apply lookup_insert_eq.
  - intros old Hold.
    assert (Hne : snd (UploadBlobBuffer (service fault)
                         (blobstorage_read.info_Name blobInfo) containerName data blobs)
                  <> None).
    { intros E. pose proof (Hok E) as Hf.
      revert E. unfold UploadBlobBuffer. cbn [service UploadBuffer]. unfold put.
      destruct fault; [cbn; discriminate|].
      cbn [if_none_match AccessConditions ModifiedAccessConditions IfNoneMatch].
      rewrite (bool_decide_eq_true_2 _ eq_refl).
      rewrite bool_decide_eq_true_2 by (rewrite Hold; eexists; reflexivity).
      cbn. discriminate. }
    split; [exact Hne|]. apply Hget. now rewrite (Hko Hne).
  - intros Hnone. unfold blobstorage_read.DownloadBlob. cbn. unfold azblob_read.get.
    now rewrite Hnone.
Qed.

Lemma DownloadBlob_reads_uploaded_witness :
  blobstorage_read.DownloadBlob (listings.storage None)
    (listings.info "docs" ("a.txt", 10)) "docs"
    (fst (UploadBlobBuffer (service None) "a.txt" "docs" [Byte.x68; Byte.x69] ∅))
  = (Some {| azblob_read.Body := [Byte.x68; Byte.x69] |}, None).
Proof.
  apply (proj1 (DownloadBlob_reads_uploaded None (listings.info "docs" ("a.txt", 10))
                  "docs" [Byte.x68; Byte.x69] ∅)).
  reflexivity.
Defined.

(** ** Downloads to local files *)

(** X12: [DownloadFile] ends the hosting process exactly when the local
    file was created and closing it fails; the download itself may have
    succeeded.  When the file cannot be created the error is returned, the
    local files are as before and the service's answer plays no part.
    Otherwise the call returns an error exactly when the client did, and no
    local file other than the one named after the blob is touched. *)
Theorem DownloadFile_ends_process_iff
    (bs : blobstorage_read.blobStorage) (fs : osfile.Faults)
    (blobInfo : blobstorage_read.BlobInfo) (containerName : string)
    (blobs : gmap blob_name (list Byte.byte))
    (files : gmap string (list Byte.byte)) :
  let r := blobstorage_read.DownloadFile bs fs blobInfo containerName blobs files in
  (ends_process (snd r) = true <->
   osfile.Create fs = None /\ osfile.CloseFile fs <> None) /\
  (forall e,
      osfile.Create fs = Some e ->
      r = (files, Returned (Some ("error creating a file: " +:+ e)))) /\
  (osfile.Create fs = None -> osfile.CloseFile fs = None ->
   exists result,
     snd r = Returned result /\
     (result = None <->
      snd (azblob_read.DownloadFile (blobstorage_read.Client bs) containerName
             (blobstorage_read.info_Name blobInfo) blobs) = None)) /\
  (forall other,
      other <> blobstorage_read.info_Name blobInfo ->
      fst r !! other = files !! other).
Proof.
  cbv zeta. unfold blobstorage_read.DownloadFile.
  destruct (osfile.Create fs) as [ec|].
  { cbn. repeat split; try discriminate; try congruence.
    intros [H _]; discriminate H. }
  destruct (azblob_read.DownloadFile _ _ _ _) as [written r].
  destruct (osfile.CloseFile fs) as [ecl|]; cbn [fst snd ends_process].
  - split; [|split; [|split]].
    + split; [intros _; split; [reflexivity|discriminate]|reflexivity].
    + discriminate.
    + discriminate.
    + intros other Ho. now rewrite !lookup_insert_ne by congruence.
  - split; [|split; [|split]].
    + split; [discriminate|]. intros [_ H]. congruence.
    + discriminate.
    + intros _ _. eexists. split; [reflexivity|].
      destruct r; cbn; split; intros H; try discriminate H; reflexivity.
    + intros other Ho. now rewrite !lookup_insert_ne by congruence.
Qed.

Lemma DownloadFile_ends_process_iff_witness :
  ends_process
    (snd (blobstorage_read.DownloadFile (listings.storage None)
            {| osfile.Create := None; osfile.CloseFile := Some "input/output error";
               osfile.CloseStream := None; osfile.Copy := None |}
            (listings.info "docs" ("a.txt", 10)) "docs"
            {[ ("docs", "a.txt") := [Byte.x68; Byte.x69] ]} ∅)) = true.
Proof.
  apply (proj1 (DownloadFile_ends_process_iff (listings.storage None)
                  {| osfile.Create := None; osfile.CloseFile := Some "input/output error";
                     osfile.CloseStream := None; osfile.Copy := None |}
                  (listings.info "docs" ("a.txt", 10)) "docs"
                  {[ ("docs", "a.txt") := [Byte.x68; Byte.x69] ]} ∅)).
  split; [reflexivity|discriminate].
Defined.

(** X13: [DownloadFile] creates, and so empties, the local file before it
    asks the service.  With the local file calls answering well: when the
    blob exists the local file named after it holds the blob's bytes and no
    error is returned, in particular after a successful [UploadBlobBuffer]
    of these bytes; when the blob does not exist the error is returned and
    the local file is left empty, whatever it held before. *)
Theorem DownloadFile_truncates_before_download
    (fs : osfile.Faults) (blobInfo : blobstorage_read.BlobInfo)
    (containerName : string) (blobs : gmap blob_name (list Byte.byte))
    (files : gmap string (list Byte.byte)) :
  let blobName := blobstorage_read.info_Name blobInfo in
  osfile.Create fs = None -> osfile.CloseFile fs = None ->
  (forall data,
      blobs !! (containerName, blobName) = Some data ->
      blobstorage_read.DownloadFile (listings.storage None) fs blobInfo
        containerName blobs files
      = (<[blobName := data]> files, Returned None)) /\
  (blobs !! (containerName, blobName) = None ->
   blobstorage_read.DownloadFile (listings.storage None) fs blobInfo
     containerName blobs files
   = (<[blobName := []]> files,
      Returned (Some "error downloading blob from blob storage: BlobNotFound"))) /\
  (forall data,
      snd (UploadBlobBuffer (service None) blobName containerName data blobs) = None ->
      fst (blobstorage_read.DownloadFile (listings.storage None) fs blobInfo
             containerName
             (fst (UploadBlobBuffer (service None) blobName containerName data blobs))
             files) !! blobName
      = Some data).
Proof.
  cbv zeta. intros Hc Hcl.
  assert (Hget : forall m data,
             m !! (containerName, blobstorage_read.info_Name blobInfo) = Some data ->
             blobstorage_read.DownloadFile (listings.storage None) fs blobInfo
               containerName m files
             = (<[blobstorage_read.info_Name blobInfo := data]> files, Returned None)).
  { intros m data Hm. unfold blobstorage_read.DownloadFile. rewrite Hc, Hcl.
    cbn. unfold azblob_read.fetch, azblob_read.get. rewrite Hm. cbn.
    now rewrite insert_insert_eq. }
  split; [exact (Hget blobs)|]. split.
  - intros Hnone. unfold blobstorage_read.DownloadFile. rewrite Hc, Hcl.
    cbn. unfold azblob_read.fetch, azblob_read.get. rewrite Hnone. cbn.
    now rewrite insert_insert_eq.
  - intros data E.
    destruct (conditional_upload_result None (blobstorage_read.info_Name blobInfo)
                containerName data blobs) as (_ & _ & Hok & _).
    rewrite (Hget _ data) by (rewrite (Hok E); apply lookup_insert_eq).
    apply lookup_insert_eq.
Qed.

Lemma DownloadFile_truncates_before_download_witness :
  blobstorage_read.DownloadFile (listings.storage None) osfile.no_faults
    (listings.info "docs" ("a.txt", 10)) "docs" ∅
    {[ "a.txt" := [Byte.x6f; Byte.x6c; Byte.x64] ]}
  = (<["a.txt" := []]> {[ "a.txt" := [Byte.x6f; Byte.x6c; Byte.x64] ]},
     Returned (Some "error downloading blob from blob storage: BlobNotFound")).
Proof.
  apply (DownloadFile_truncates_before_download osfile.no_faults
           (listings.info "docs" ("a.txt", 10)) "docs" ∅
           {[ "a.txt" := [Byte.x6f; Byte.x6c; Byte.x64] ]} eq_refl eq_refl).
  reflexivity.
Defined.

(** X14: [WriteToFile] ends the hosting process exactly when the file was
    created and closing it fails, or closing the response stream fails; the
    stream is closed also when the file could not be created.  With every
    call answering well the local file holds the bytes of the response and no
    error is returned; when the file cannot be created the local files are as
    before. *)
Theorem WriteToFile_ends_process_iff
    (fs : osfile.Faults) (blobName : string)
    (response : azblob_read.DownloadStreamResponse)
    (files : gmap string (list Byte.byte)) :
  let r := blobstorage_read.WriteToFile fs blobName response files in
  (ends_process (snd r) = true <->
   (osfile.Create fs = None /\ osfile.CloseFile fs <> None) \/
   osfile.CloseStream fs <> None) /\
  (osfile.Create fs = None -> osfile.Copy fs = None ->
   osfile.CloseFile fs = None -> osfile.CloseStream fs = None ->
   r = (<[blobName := azblob_read.Body response]> files, Returned None)) /\
  (forall e,
      osfile.Create fs = Some e -> osfile.CloseStream fs = None ->
      r = (files, Returned (Some ("error creating a file: " +:+ e)))).
Proof.
  cbv zeta. unfold blobstorage_read.WriteToFile.
  destruct (osfile.Create fs) as [ec|].
  - destruct (osfile.CloseStream fs) as [es|]; cbn; (split; [|split]);
      try discriminate; try congruence.
    + split; [intros _; right; discriminate|reflexivity].
    + split; [discriminate|]. intros [[H _]|H]; congruence.
  - destruct (osfile.Copy fs) as [[n e]|];
      destruct (osfile.CloseFile fs) as [ecl|];
      destruct (osfile.CloseStream fs) as [es|]; cbn;
      (split; [|split]); try discriminate; try congruence;
      try (split; [intros _|reflexivity]; try (left; split; [reflexivity|discriminate]);
           right; discriminate);
      try (split; [discriminate|]; intros [[_ H]|H]; congruence).
    intros _ _ _ _. now rewrite insert_insert_eq.
Qed.

Lemma WriteToFile_ends_process_iff_witness :
  ends_process
    (snd (blobstorage_read.WriteToFile
            {| osfile.Create := Some "permission denied"; osfile.CloseFile := None;
               osfile.CloseStream := Some "connection reset"; osfile.Copy := None |}
            "a.txt" {| azblob_read.Body := [Byte.x68; Byte.x69] |} ∅)) = true.
Proof.
  apply (proj1 (WriteToFile_ends_process_iff
                  {| osfile.Create := Some "permission denied"; osfile.CloseFile := None;
                     osfile.CloseStream := Some "connection reset"; osfile.Copy := None |}
                  "a.txt" {| azblob_read.Body := [Byte.x68; Byte.x69] |} ∅)).
  right. discriminate.
Defined.

(** X15: the two ways to a local copy agree.  For a blob that exists, and
    with every local call answering well, [DownloadBlob] followed by
    [WriteToFile] on its response leaves the same local files and the same
    result as [DownloadFile]: the file named after the blob holds the blob's
    bytes. *)
Theorem WriteToFile_after_DownloadBlob_is_DownloadFile
    (blobInfo : blobstorage_read.BlobInfo) (containerName : string)
    (blobs : gmap blob_name (list Byte.byte))
    (files : gmap string (list Byte.byte)) (data : list Byte.byte) :
  blobs !! (containerName, blobstorage_read.info_Name blobInfo) = Some data ->
  exists response,
    blobstorage_read.DownloadBlob (listings.storage None) blobInfo containerName blobs
    = (Some response, None) /\
    blobstorage_read.WriteToFile osfile.no_faults
      (blobstorage_read.info_Name blobInfo) response files
    = blobstorage_read.DownloadFile (listings.storage None) osfile.no_faults
        blobInfo containerName blobs files /\
    blobstorage_read.WriteToFile osfile.no_faults
      (blobstorage_read.info_Name blobInfo) response files
    = (<[blobstorage_read.info_Name blobInfo := data]> files, Returned None).
Proof.
  intros Hd. exists {| azblob_read.Body := data |}.
  unfold blobstorage_read.DownloadBlob, blobstorage_read.WriteToFile,
    blobstorage_read.DownloadFile.
  cbn. unfold azblob_read.fetch, azblob_read.get. rewrite Hd. cbn.
  repeat split; now rewrite ?insert_insert_eq.
Qed.

Lemma WriteToFile_after_DownloadBlob_is_DownloadFile_witness :
  exists response,
    blobstorage_read.DownloadBlob (listings.storage None)
      (listings.info "docs" ("a.txt", 10)) "docs"
      {[ ("docs", "a.txt") := [Byte.x68; Byte.x69] ]}
    = (Some response, None) /\
    blobstorage_read.WriteToFile osfile.no_faults "a.txt" response ∅
    = blobstorage_read.DownloadFile (listings.storage None) osfile.no_faults
        (listings.info "docs" ("a.txt", 10)) "docs"
        {[ ("docs", "a.txt") := [Byte.x68; Byte.x69] ]} ∅ /\
    blobstorage_read.WriteToFile osfile.no_faults "a.txt" response ∅
    = (<["a.txt" := [Byte.x68; Byte.x69]]> ∅, Returned None).
Proof.
  apply (WriteToFile_after_DownloadBlob_is_DownloadFile
           (listings.info "docs" ("a.txt", 10)) "docs"
           {[ ("docs", "a.txt") := [Byte.x68; Byte.x69] ]} ∅ [Byte.x68; Byte.x69]).
  reflexivity.
Defined.

(** ** Signed URLs *)




